(** * XAI-Dashboard: the what-if comparison pipeline

    A shallow embedding of the logic of the dashboard's what-if mode:
    - [WhatIfInputForm]: the changed-field tracking effect;
    - [ComparisonView]: [getComparisonData];
    - [ExplanationChart]: [prepareSHAPData], [prepareLIMEData],
      [prepareFeatureImportanceData];
    - [Api]: the axios response interceptor and the [apiService] wrappers;
    - [WhatIfAnalysis]: the page state, [handleModifiedDataChange], the body of
      [debouncedPredict] and [handleReset].

    Modelling choices.
    - A JavaScript [number] is an exact rational ([Q]).  The numbers that reach
      this code are JSON-decoded or produced by form controls; NaN, the
      infinities and rounding are outside the model.
    - A JavaScript object used as a record or as a string-keyed mapping is an
      association list in the order [Object.keys] enumerates it (the order
      feeds [forEach], [Set] insertion and the stable sort).
    - [Array.prototype.sort] is a stable sort driven by the sign of the
      comparator; with a consistent comparator every stable sort returns the
      same array, so it is written as a stable insertion sort.
    - A promise is modelled by its settlement ([Resolved] or [Rejected]);
      [Promise.all] of two promises also takes which of them settles first. *)

From Stdlib Require Import List String Ascii Bool Arith Lia.
From Stdlib Require Import QArith Qabs Lqa.
From Stdlib Require Import Permutation Sorted.
Import ListNotations.

Local Open Scope string_scope.
Local Open Scope list_scope.

(** ** JavaScript values, objects and array helpers *)

Module JS.

(** The primitive values a form field or a JSON leaf can hold. *)
Inductive value : Type :=
| Undefined
| Null
| Bool (b : bool)
| Num (q : Q)
| Str (s : string).

(** [a === b] on primitives: same type and same value. *)
Definition strict_eq (a b : value) : bool :=
  match a, b with
  | Undefined, Undefined => true
  | Null, Null => true
  | Bool x, Bool y => Bool.eqb x y
  | Num x, Num y => Qeq_bool x y
  | Str x, Str y => String.eqb x y
  | _, _ => false
  end.

(** [a !== b]. *)
Definition strict_neq (a b : value) : bool := negb (strict_eq a b).

(** An object with values in [V], in own-property enumeration order. *)
Definition object (V : Type) : Type := list (string * V).

(** [Object.keys(o)]. *)
Definition keys {V} (o : object V) : list string := map fst o.

(** [Object.entries(o)]. *)
Definition entries {V} (o : object V) : list (string * V) := o.

(** Own-property lookup; [None] stands for [undefined]. *)
Fixpoint lookup {V} (o : object V) (k : string) : option V :=
  match o with
  | [] => None
  | (k', v) :: o' => if String.eqb k' k then Some v else lookup o' k
  end.

(** [o[k]] on an object of primitives. *)
Definition get (o : object value) (k : string) : value :=
  match lookup o k with
  | Some v => v
  | None => Undefined
  end.

(** [o[k] || 0] on a mapping to numbers: [undefined] and [0] are falsy. *)
Definition get_or_zero (o : object Q) (k : string) : Q :=
  match lookup o k with
  | Some v => if Qeq_bool v 0 then 0%Q else v
  | None => 0%Q
  end.

(** [arr.push(x)]. *)
Definition push {A} (arr : list A) (x : A) : list A := arr ++ [x].

(** [arr.forEach(f)] where [f] updates a state of type [S]. *)
Definition forEach {A S} (arr : list A) (f : A -> S -> S) (s : S) : S :=
  fold_left (fun acc a => f a acc) arr s.

(** [arr.includes(x)] on strings. *)
Definition includes (arr : list string) (x : string) : bool :=
  existsb (String.eqb x) arr.

(** [new Set(arr)]: elements in first-insertion order. *)
Definition Set_add (s : list string) (x : string) : list string :=
  if includes s x then s else push s x.

Definition new_Set (arr : list string) : list string :=
  fold_left Set_add arr [].

(** [arr.slice(0, n)]. *)
Definition slice0 {A} (n : nat) (arr : list A) : list A := firstn n arr.

(** [arr.sort(cmp)]: [a] stays before [b] unless [cmp a b > 0]. *)
Fixpoint sort_insert {A} (cmp : A -> A -> Q) (x : A) (l : list A) : list A :=
  match l with
  | [] => [x]
  | y :: l' =>
      if Qle_bool (cmp x y) 0 then x :: l else y :: sort_insert cmp x l'
  end.

Definition sort {A} (cmp : A -> A -> Q) (arr : list A) : list A :=
  fold_right (sort_insert cmp) [] arr.

(** [s.replace(/_/g, ' ')] and [s.toUpperCase()] on ASCII text. *)
Definition underscore_to_space (c : ascii) : ascii :=
  if Ascii.eqb c "_"%char then " "%char else c.

Definition upper (c : ascii) : ascii :=
  let n := nat_of_ascii c in
  if (97 <=? n)%nat && (n <=? 122)%nat then ascii_of_nat (n - 32) else c.

Fixpoint map_chars (f : ascii -> ascii) (s : string) : string :=
  match s with
  | EmptyString => EmptyString
  | String c s' => String (f c) (map_chars f s')
  end.

Definition replace_underscores (s : string) : string :=
  map_chars underscore_to_space s.

Definition toUpperCase (s : string) : string := map_chars upper s.

(** [a > b] on numbers. *)
Definition gt (a b : Q) : bool := negb (Qle_bool a b).

(** [a >= b] on numbers. *)
Definition ge (a b : Q) : bool := Qle_bool b a.

(** Truthiness of a string that may be [null]: [null] and [''] are falsy. *)
Definition truthy_string (x : option string) : bool :=
  match x with
  | Some s => negb (String.eqb s "")
  | None => false
  end.

(** The outcome of evaluating an expression: a value or a thrown error. *)
Inductive completion (A : Type) : Type :=
| Normal (a : A)
| Throw (e : string).
Arguments Normal {A} a.
Arguments Throw {A} e.

Definition bind {A B} (c : completion A) (k : A -> completion B)
  : completion B :=
  match c with
  | Normal a => k a
  | Throw e => Throw e
  end.

(** Using [x] as an object ([x.p], [Object.keys(x)], [Object.entries(x)])
    throws when [x] is [null] or [undefined]. *)
Definition to_object {A} (x : option A) : completion A :=
  match x with
  | Some r => Normal r
  | None => Throw "TypeError"
  end.

(** [x.p]. *)
Definition member {R A} (x : option R) (p : R -> A) : completion A :=
  bind (to_object x) (fun r => Normal (p r)).

(** [x?.p] where [p] may itself be missing: [undefined] on [null]. *)
Definition opt_member {R A} (x : option R) (p : R -> option A) : option A :=
  match x with
  | Some r => p r
  | None => None
  end.

(** Truthiness of an object reference: only [null]/[undefined] are falsy. *)
Definition truthy {A} (x : option A) : bool :=
  match x with
  | Some _ => true
  | None => false
  end.

Definition Object_keys {V} (x : option (object V)) : completion (list string) :=
  bind (to_object x) (fun o => Normal (keys o)).

Definition Object_entries {V} (x : option (object V))
  : completion (list (string * V)) :=
  bind (to_object x) (fun o => Normal (entries o)).

End JS.

Notation "x <- c ;; k" := (JS.bind c (fun x => k))
  (at level 61, c at next level, right associativity).

(** ** Data-transfer shapes ([types]) *)

(** The fields of [StudentInput], in declaration order. *)
Definition StudentInput_fields : list string :=
  [ "id_student"; "code_module"; "code_presentation"; "gender"; "region";
    "highest_education"; "imd_band"; "age_band"; "num_of_prev_attempts";
    "studied_credits"; "disability"; "completed_course"; "withdrawal_status";
    "total_clicks"; "avg_clicks_per_session"; "click_variability";
    "total_sessions"; "first_access_day"; "last_access_day"; "active_days";
    "engagement_duration"; "daily_engagement_rate"; "avg_assessment_score";
    "score_consistency"; "total_assessments"; "first_submission";
    "last_submission"; "banked_assessments" ].

(** A [StudentInput] at run time: an object of primitives. *)
Definition StudentInput : Type := JS.object JS.value.

(** The object carries exactly the declared fields, in any order. *)
Definition StudentRecord (r : StudentInput) : Prop :=
  Permutation (JS.keys r) StudentInput_fields.

Inductive Outcome : Type := Distinction | Pass | Fail | Withdrawn.

(** The string an outcome is on the wire. *)
Definition Outcome_label (o : Outcome) : string :=
  match o with
  | Distinction => "Distinction"
  | Pass => "Pass"
  | Fail => "Fail"
  | Withdrawn => "Withdrawn"
  end.

Inductive Direction : Type := positive | negative.

Module PredictionResponse.
Record t : Type := {
  prediction : Outcome;
  probabilities : JS.object Q;
  confidence : Q;
  student_id : Q
}.
End PredictionResponse.

Module FeatureImportance.
Record t : Type := {
  feature : string;
  importance : Q;
  direction : Direction;
  shap_value : Q;
  lime_value : Q
}.
End FeatureImportance.

Module ExplanationResponse.
Record Lime : Type := {
  top_features : option (JS.object Q);
  intercept : Q;
  local_prediction : Q
}.
Record Plots : Type := {
  plots_shap : JS.object string;
  plots_lime : JS.object string
}.
Record LimeExplanation : Type := {
  shap : JS.object Q;
  lime : option Lime;
  plots : Plots
}.
(** The declared type has every part present; the components test the parts
    they read for presence, so those are optional here. *)
Record t : Type := {
  student_id : Q;
  prediction : Outcome;
  shap_values : option (JS.object Q);
  lime_explanation : option LimeExplanation;
  feature_importance : option (list FeatureImportance.t)
}.
End ExplanationResponse.

(** ** [WhatIfInputForm]: changed-field tracking *)

Module WhatIfInputForm.

(** The body of the tracking effect: the [changed] array handed to
    [debouncedOnChange]. *)
Definition trackChangedFields (formData originalData : StudentInput)
  : list string :=
  JS.forEach (JS.keys formData)
    (fun key changed =>
       if JS.strict_neq (JS.get formData key) (JS.get originalData key)
       then JS.push changed key
       else changed)
    [].

(** [setValue(fieldName, v)] on the form values ([resetField] passes
    [originalData[fieldName]]). *)
Fixpoint setValue (o : StudentInput) (k : string) (v : JS.value)
  : StudentInput :=
  match o with
  | [] => [(k, v)]
  | (k', v') :: o' =>
      if String.eqb k' k then (k', v) :: o' else (k', v') :: setValue o' k v
  end.

Definition resetField (formData originalData : StudentInput)
    (fieldName : string) : StudentInput :=
  setValue formData fieldName (JS.get originalData fieldName).

Inductive Icon : Type := TrendingUp | TrendingDown | Remove.

(** [getFieldChangeIcon]; [getValues(fieldName)] reads the form values. *)
Definition getFieldChangeIcon (changedFields : list string)
    (formData originalData : StudentInput) (fieldName : string)
  : option Icon :=
  if negb (JS.includes changedFields fieldName) then None
  else
    let currentValue := JS.get formData fieldName in
    let originalValue := JS.get originalData fieldName in
    match currentValue, originalValue with
    | JS.Num c, JS.Num o =>
        if JS.gt c o then Some TrendingUp
        else if JS.gt o c then Some TrendingDown
        else Some Remove
    | _, _ => Some Remove
    end.

(** The [expandedSections] state cell and [toggleSection]. *)
Record ExpandedSections : Type := {
  basic : bool;
  academic : bool;
  engagement : bool;
  assessment : bool
}.

Inductive SectionName : Type :=
| Basic | Academic | Engagement | Assessment.

Definition expandedInitially : ExpandedSections :=
  {| basic := true; academic := true; engagement := false;
     assessment := false |}.

Definition expanded (prev : ExpandedSections) (section : SectionName) : bool :=
  match section with
  | Basic => basic prev
  | Academic => academic prev
  | Engagement => engagement prev
  | Assessment => assessment prev
  end.

Definition toggleSection (section : SectionName) (prev : ExpandedSections)
  : ExpandedSections :=
  match section with
  | Basic =>
      {| basic := negb (basic prev); academic := academic prev;
         engagement := engagement prev; assessment := assessment prev |}
  | Academic =>
      {| basic := basic prev; academic := negb (academic prev);
         engagement := engagement prev; assessment := assessment prev |}
  | Engagement =>
      {| basic := basic prev; academic := academic prev;
         engagement := negb (engagement prev); assessment := assessment prev |}
  | Assessment =>
      {| basic := basic prev; academic := academic prev;
         engagement := engagement prev; assessment := negb (assessment prev) |}
  end.

(** The field lists of the four section borders. *)
Definition sectionFields (section : SectionName) : list string :=
  match section with
  | Basic =>
      [ "id_student"; "code_module"; "code_presentation"; "gender";
        "age_band"; "region" ]
  | Academic =>
      [ "highest_education"; "imd_band"; "disability"; "studied_credits";
        "num_of_prev_attempts"; "completed_course"; "withdrawal_status" ]
  | Engagement =>
      [ "total_clicks"; "avg_clicks_per_session"; "active_days";
        "daily_engagement_rate" ]
  | Assessment =>
      [ "avg_assessment_score"; "score_consistency"; "total_assessments";
        "banked_assessments" ]
  end.

(** [changedFields.some(f => [...].includes(f))]: the section's border is
    drawn. *)
Definition sectionHighlighted (changedFields : list string)
    (section : SectionName) : bool :=
  existsb (fun f => JS.includes (sectionFields section) f) changedFields.

(** The names of the [Controller]s the form renders. *)
Definition controlledFields : list string :=
  [ "id_student"; "code_module"; "code_presentation"; "gender"; "age_band";
    "region"; "highest_education"; "imd_band"; "disability";
    "studied_credits"; "num_of_prev_attempts"; "completed_course";
    "withdrawal_status"; "total_clicks"; "avg_clicks_per_session";
    "active_days"; "daily_engagement_rate"; "avg_assessment_score";
    "score_consistency"; "total_assessments"; "banked_assessments" ].

End WhatIfInputForm.

(** ** [ComparisonView]: comparison rows *)

Module ComparisonView.

Record Row : Type := {
  feature : string;
  original : Q;
  modified : Q;
  change : Q;
  isChanged : bool
}.

(** The object pushed for one feature of [allFeatures]. *)
Definition comparisonRow (originalShap modifiedShap : JS.object Q)
    (changedFields : list string) (feature : string) : Row :=
  let originalValue := JS.get_or_zero originalShap feature in
  let modifiedValue := JS.get_or_zero modifiedShap feature in
  let change := (modifiedValue - originalValue)%Q in
  {| feature := JS.toUpperCase (JS.replace_underscores feature);
     original := originalValue;
     modified := modifiedValue;
     change := change;
     isChanged := JS.includes changedFields feature |}.

(** The key the rows are ranked by: [Math.abs(r.change)]. *)
Definition absChange (r : Row) : Q := Qabs (change r).

(** The sort comparator [(a, b) => Math.abs(b.change) - Math.abs(a.change)]. *)
Definition byAbsChange (a b : Row) : Q :=
  (Qabs (change b) - Qabs (change a))%Q.

Definition getComparisonData
    (originalExplanation modifiedExplanation : option ExplanationResponse.t)
    (changedFields : list string) : JS.completion (list Row) :=
  if negb (JS.truthy (JS.opt_member originalExplanation
                        ExplanationResponse.shap_values))
     || negb (JS.truthy (JS.opt_member modifiedExplanation
                           ExplanationResponse.shap_values))
  then JS.Normal []
  else
    originalShap <- JS.member originalExplanation
                      ExplanationResponse.shap_values ;;
    modifiedShap <- JS.member modifiedExplanation
                      ExplanationResponse.shap_values ;;
    originalKeys <- JS.Object_keys originalShap ;;
    modifiedKeys <- JS.Object_keys modifiedShap ;;
    originalShap <- JS.to_object originalShap ;;
    modifiedShap <- JS.to_object modifiedShap ;;
    let allFeatures := JS.new_Set (originalKeys ++ modifiedKeys) in
    let data :=
      JS.forEach allFeatures
        (fun feature data =>
           JS.push data
             (comparisonRow originalShap modifiedShap changedFields feature))
        [] in
    JS.Normal (JS.slice0 10 (JS.sort byAbsChange data)).

Inductive PredictionIcon : Type :=
| School | CheckCircle | Cancel | Warning.

Definition getPredictionIcon (pred : string) : option PredictionIcon :=
  if String.eqb pred "Distinction" then Some School
  else if String.eqb pred "Pass" then Some CheckCircle
  else if String.eqb pred "Fail" then Some Cancel
  else if String.eqb pred "Withdrawn" then Some Warning
  else None.

Definition getPredictionColor (pred : string) : string :=
  if String.eqb pred "Distinction" then "#4caf50"
  else if String.eqb pred "Pass" then "#2196f3"
  else if String.eqb pred "Fail" then "#f44336"
  else if String.eqb pred "Withdrawn" then "#ff9800"
  else "#757575".

(** The fill and the opacity of a bar of the comparison chart. *)
Definition cellFill (entry : Row) : string :=
  if isChanged entry then "#ff9800"
  else if JS.ge (change entry) 0 then "#4caf50" else "#f44336".

Definition cellOpacity (entry : Row) : Q :=
  if isChanged entry then 1%Q else (7 # 10)%Q.






(** The early return and the guard of the prediction panel. *)
Definition placeholderShown
    (originalPrediction modifiedPrediction : option PredictionResponse.t)
  : bool :=
  negb (JS.truthy originalPrediction) && negb (JS.truthy modifiedPrediction).

Definition predictionPanelShown
    (originalPrediction modifiedPrediction : option PredictionResponse.t)
  : bool :=
  negb (placeholderShown originalPrediction modifiedPrediction)
  && (JS.truthy originalPrediction && JS.truthy modifiedPrediction).

(** The chips of the "Modified Fields" summary. *)
Definition changedFieldChips (changedFields : list string) : list string :=
  map JS.replace_underscores changedFields.

End ComparisonView.

(** ** [PredictionCard] *)

Module PredictionCard.

Definition getPredictionIcon (pred : string)
  : option ComparisonView.PredictionIcon :=
  if String.eqb pred "Distinction" then Some ComparisonView.School
  else if String.eqb pred "Pass" then Some ComparisonView.CheckCircle
  else if String.eqb pred "Fail" then Some ComparisonView.Cancel
  else if String.eqb pred "Withdrawn" then Some ComparisonView.Warning
  else None.

Definition getPredictionColor (pred : string) : string :=
  if String.eqb pred "Distinction" then "#4caf50"
  else if String.eqb pred "Pass" then "#2196f3"
  else if String.eqb pred "Fail" then "#f44336"
  else if String.eqb pred "Withdrawn" then "#ff9800"
  else "#757575".

End PredictionCard.

(** ** [ExplanationChart]: single-sided rankings *)

Module ExplanationChart.

Record ChartRow : Type := {
  feature : string;
  value : Q;
  absValue : Q
}.

(** [([feature, value]) => ({feature: ..., value, absValue})]. *)
Definition chartRow (entry : string * Q) : ChartRow :=
  let '(feature, value) := entry in
  {| feature := JS.toUpperCase (JS.replace_underscores feature);
     value := value;
     absValue := Qabs value |}.

(** The sort comparator [(a, b) => b.absValue - a.absValue]. *)
Definition byAbsValue (a b : ChartRow) : Q := (absValue b - absValue a)%Q.

Definition prepareSHAPData (explanation : option ExplanationResponse.t)
  : JS.completion (list ChartRow) :=
  if negb (JS.truthy (JS.opt_member explanation
                        ExplanationResponse.shap_values))
  then JS.Normal []
  else
    shap_values <- JS.member explanation ExplanationResponse.shap_values ;;
    entries <- JS.Object_entries shap_values ;;
    JS.Normal (JS.slice0 10 (JS.sort byAbsValue (map chartRow entries))).

(** [explanation?.lime_explanation?.lime?.top_features]. *)
Definition top_features_of (explanation : option ExplanationResponse.t)
  : option (JS.object Q) :=
  JS.opt_member
    (JS.opt_member
       (JS.opt_member explanation ExplanationResponse.lime_explanation)
       ExplanationResponse.lime)
    ExplanationResponse.top_features.

Definition prepareLIMEData (explanation : option ExplanationResponse.t)
  : JS.completion (list ChartRow) :=
  if negb (JS.truthy (top_features_of explanation))
  then JS.Normal []
  else
    lime_explanation <- JS.member explanation
                          ExplanationResponse.lime_explanation ;;
    lime <- JS.member lime_explanation ExplanationResponse.lime ;;
    top_features <- JS.member lime ExplanationResponse.top_features ;;
    entries <- JS.Object_entries top_features ;;
    JS.Normal (JS.slice0 10 (JS.sort byAbsValue (map chartRow entries))).

Record ImportanceRow : Type := {
  ir_feature : string;
  importance : Q;
  direction : Direction;
  shap_value : Q;
  lime_value : Q
}.

Definition importanceRow (item : FeatureImportance.t) : ImportanceRow :=
  {| ir_feature :=
       JS.toUpperCase (JS.replace_underscores (FeatureImportance.feature item));
     importance := FeatureImportance.importance item;
     direction := FeatureImportance.direction item;
     shap_value := FeatureImportance.shap_value item;
     lime_value := FeatureImportance.lime_value item |}.

Definition prepareFeatureImportanceData
    (explanation : option ExplanationResponse.t)
  : JS.completion (list ImportanceRow) :=
  if negb (JS.truthy (JS.opt_member explanation
                        ExplanationResponse.feature_importance))
  then JS.Normal []
  else
    feature_importance <- JS.member explanation
                            ExplanationResponse.feature_importance ;;
    items <- JS.to_object feature_importance ;;
    JS.Normal (map importanceRow (JS.slice0 10 items)).

(** The magnitude the importance rows would be ranked by. *)
Definition absImportance (r : ImportanceRow) : Q := Qabs (importance r).

(** The list behind a reference that may be missing. *)
Definition present_or_empty {A} (x : option (list A)) : list A :=
  match x with
  | Some l => l
  | None => []
  end.

(** [getBarColor]. *)
Definition getBarColor (value : Q) : string :=
  if JS.ge value 0 then "#4caf50" else "#f44336".

(** What the component renders, by its early returns. *)
Inductive View : Type :=
| Loading
| ErrorView (message : string)
| Nothing
| Charts (shapData limeData : list ChartRow)
         (featureImportanceData : list ImportanceRow).

Definition render (explanation : option ExplanationResponse.t)
    (loading : bool) (error : option string) : JS.completion View :=
  if loading then JS.Normal Loading
  else if JS.truthy_string error then
    JS.Normal (ErrorView (match error with Some m => m | None => "" end))
  else if negb (JS.truthy explanation) then JS.Normal Nothing
  else
    shapData <- prepareSHAPData explanation ;;
    limeData <- prepareLIMEData explanation ;;
    featureImportanceData <- prepareFeatureImportanceData explanation ;;
    JS.Normal (Charts shapData limeData featureImportanceData).

End ExplanationChart.

(** ** [api]: the HTTP client *)

Module Api.

(** The [response] part of an axios error. *)
Record ErrorResponse : Type := {
  status : nat;
  detail : option string
}.

Record AxiosError : Type := {
  response : option ErrorResponse;
  code : option string;
  axios_message : string
}.

(** What a [catch] clause can receive: an [Error] built with [new Error(msg)],
    the axios error itself (an [Error] too), or a value that is no [Error]. *)
Inductive thrown : Type :=
| NewError (msg : string)
| OfAxios (e : AxiosError)
| NonError (v : JS.value).

(** [err instanceof Error ? err.message : fallback]. *)
Definition message_or (fallback : string) (err : thrown) : string :=
  match err with
  | NewError msg => msg
  | OfAxios e => axios_message e
  | NonError _ => fallback
  end.

(** The settlement of a promise. *)
Inductive result (A : Type) : Type :=
| Resolved (a : A)
| Rejected (err : thrown).
Arguments Resolved {A} a.
Arguments Rejected {A} err.

(** What the transport hands to the response interceptors. *)
Inductive transport (A : Type) : Type :=
| Success (data : A)
| Failure (e : AxiosError).
Arguments Success {A} data.
Arguments Failure {A} e.

(** [error.response?.status === n]. *)
Definition status_is (e : AxiosError) (n : nat) : bool :=
  match response e with
  | Some r => Nat.eqb (status r) n
  | None => false
  end.

(** [error.code === c]. *)
Definition code_is (e : AxiosError) (c : string) : bool :=
  match code e with
  | Some c' => String.eqb c' c
  | None => false
  end.

(** [error.response.data.detail || 'Invalid input data']: a missing or empty
    detail is falsy. *)
Definition detail_or_default (e : AxiosError) : string :=
  match response e with
  | Some r =>
      match detail r with
      | Some d => if String.eqb d "" then "Invalid input data" else d
      | None => "Invalid input data"
      end
  | None => "Invalid input data"
  end.

(** The rejection handler of the response interceptor. *)
Definition onResponseError (error : AxiosError) : thrown :=
  if status_is error 422 then
    NewError ("Validation Error: " ++ detail_or_default error)
  else if status_is error 500 then
    NewError "Server Error: Please try again later"
  else if code_is error "ECONNREFUSED" then
    NewError "Connection Error: Backend server is not running"
  else if code_is error "ECONNABORTED" then
    NewError "Timeout Error: Request took too long to complete"
  else OfAxios error.

(** [api.get] / [api.post] seen through the response interceptors. *)
Definition intercepted {A} (t : transport A) : result A :=
  match t with
  | Success data => Resolved data
  | Failure e => Rejected (onResponseError e)
  end.

(** [try { return (await call).data } catch (error) { throw new Error(msg) }]. *)
Definition try_or_throw {A} (msg : string) (call : result A) : result A :=
  match call with
  | Resolved data => Resolved data
  | Rejected _ => Rejected (NewError msg)
  end.

Definition checkHealth {A} (t : transport A) : result A :=
  try_or_throw "Failed to check API health" (intercepted t).

Definition predictStudentPerformance
    (t : transport PredictionResponse.t) : result PredictionResponse.t :=
  try_or_throw "Failed to predict student performance" (intercepted t).

Definition explainPrediction
    (t : transport ExplanationResponse.t) : result ExplanationResponse.t :=
  try_or_throw "Failed to generate explanation" (intercepted t).

(** The request each service function puts on the wire. *)
Inductive Request : Type :=
| GET (path : string)
| POST (path : string) (body : StudentInput).

Definition checkHealth_request : Request := GET "/health".

Definition predictStudentPerformance_request (studentData : StudentInput)
  : Request := POST "/predict" studentData.

Definition explainPrediction_request (studentData : StudentInput)
  : Request := POST "/explain" studentData.

(** Which promise of a pair settles first. *)
Inductive first_settled : Type := FirstOfPair | SecondOfPair.

(** [Promise.all([p1, p2])]: both values, or the earliest rejection. *)
Definition Promise_all {A B} (first : first_settled)
    (p1 : result A) (p2 : result B) : result (A * B) :=
  match p1, p2 with
  | Resolved a, Resolved b => Resolved (a, b)
  | Rejected e, Resolved _ => Rejected e
  | Resolved _, Rejected e => Rejected e
  | Rejected e1, Rejected e2 =>
      match first with
      | FirstOfPair => Rejected e1
      | SecondOfPair => Rejected e2
      end
  end.

End Api.

(** ** [WhatIfAnalysis]: the page state and its handlers *)

Module WhatIfAnalysis.

(** The [useState] cells of the page. *)
Record State : Type := {
  originalData : option StudentInput;
  originalPrediction : option PredictionResponse.t;
  modifiedPrediction : option PredictionResponse.t;
  originalExplanation : option ExplanationResponse.t;
  modifiedExplanation : option ExplanationResponse.t;
  isLoading : bool;
  error : option string;
  changedFields : list string
}.

Definition initial : State :=
  {| originalData := None;
     originalPrediction := None;
     modifiedPrediction := None;
     originalExplanation := None;
     modifiedExplanation := None;
     isLoading := false;
     error := None;
     changedFields := [] |}.

Definition setOriginalData v (s : State) : State :=
  {| originalData := v;
     originalPrediction := originalPrediction s;
     modifiedPrediction := modifiedPrediction s;
     originalExplanation := originalExplanation s;
     modifiedExplanation := modifiedExplanation s;
     isLoading := isLoading s;
     error := error s;
     changedFields := changedFields s |}.

Definition setOriginalPrediction v (s : State) : State :=
  {| originalData := originalData s;
     originalPrediction := v;
     modifiedPrediction := modifiedPrediction s;
     originalExplanation := originalExplanation s;
     modifiedExplanation := modifiedExplanation s;
     isLoading := isLoading s;
     error := error s;
     changedFields := changedFields s |}.

Definition setModifiedPrediction v (s : State) : State :=
  {| originalData := originalData s;
     originalPrediction := originalPrediction s;
     modifiedPrediction := v;
     originalExplanation := originalExplanation s;
     modifiedExplanation := modifiedExplanation s;
     isLoading := isLoading s;
     error := error s;
     changedFields := changedFields s |}.

Definition setOriginalExplanation v (s : State) : State :=
  {| originalData := originalData s;
     originalPrediction := originalPrediction s;
     modifiedPrediction := modifiedPrediction s;
     originalExplanation := v;
     modifiedExplanation := modifiedExplanation s;
     isLoading := isLoading s;
     error := error s;
     changedFields := changedFields s |}.

Definition setModifiedExplanation v (s : State) : State :=
  {| originalData := originalData s;
     originalPrediction := originalPrediction s;
     modifiedPrediction := modifiedPrediction s;
     originalExplanation := originalExplanation s;
     modifiedExplanation := v;
     isLoading := isLoading s;
     error := error s;
     changedFields := changedFields s |}.

Definition setIsLoading v (s : State) : State :=
  {| originalData := originalData s;
     originalPrediction := originalPrediction s;
     modifiedPrediction := modifiedPrediction s;
     originalExplanation := originalExplanation s;
     modifiedExplanation := modifiedExplanation s;
     isLoading := v;
     error := error s;
     changedFields := changedFields s |}.

Definition setError v (s : State) : State :=
  {| originalData := originalData s;
     originalPrediction := originalPrediction s;
     modifiedPrediction := modifiedPrediction s;
     originalExplanation := originalExplanation s;
     modifiedExplanation := modifiedExplanation s;
     isLoading := isLoading s;
     error := v;
     changedFields := changedFields s |}.

Definition setChangedFields v (s : State) : State :=
  {| originalData := originalData s;
     originalPrediction := originalPrediction s;
     modifiedPrediction := modifiedPrediction s;
     originalExplanation := originalExplanation s;
     modifiedExplanation := modifiedExplanation s;
     isLoading := isLoading s;
     error := error s;
     changedFields := v |}.

(** What a handler hands to the debounced function. *)
Inductive Scheduled : Type :=
| DebouncedPredict (data : StudentInput) (isModified : bool).

(** The requests issued when the debounced function runs: the array handed
    to [Promise.all] holds both calls, started before either is awaited. *)
Definition requests (data : StudentInput) : list Api.Request :=
  [ Api.predictStudentPerformance_request data;
    Api.explainPrediction_request data ].

(** The body of [debouncedPredict] once both calls have settled. *)
Definition debouncedPredict (data : StudentInput) (isModified : bool)
    (first : Api.first_settled)
    (predict : Api.transport PredictionResponse.t)
    (explain : Api.transport ExplanationResponse.t)
    (s : State) : State :=
  let s' :=
    match Api.Promise_all first
            (Api.predictStudentPerformance predict)
            (Api.explainPrediction explain) with
    | Api.Resolved (predictionResponse, explanationResponse) =>
        if isModified then
          setModifiedExplanation (Some explanationResponse)
            (setModifiedPrediction (Some predictionResponse) s)
        else
          setOriginalData (Some data)
            (setOriginalExplanation (Some explanationResponse)
               (setOriginalPrediction (Some predictionResponse) s))
    | Api.Rejected err =>
        setError (Some (Api.message_or "An error occurred" err)) s
    end in
  setIsLoading false s'.

(** [handleModifiedDataChange]: the new state and what it schedules. *)
Definition handleModifiedDataChange (data : StudentInput)
    (changedFieldsList : list string) (s : State) : State * list Scheduled :=
  let s1 := setChangedFields changedFieldsList s in
  if JS.truthy (originalData s) then
    (setIsLoading true s1, [DebouncedPredict data true])
  else (s1, []).

Definition handleReset (s : State) : State :=
  setError None
    (setChangedFields []
       (setModifiedExplanation None
          (setOriginalExplanation None
             (setModifiedPrediction None
                (setOriginalPrediction None
                   (setOriginalData None s)))))).

(** The baseline part of the state is the same in [s] and [s']. *)
Definition same_baseline (s s' : State) : Prop :=
  originalData s' = originalData s
  /\ originalPrediction s' = originalPrediction s
  /\ originalExplanation s' = originalExplanation s.

(** The modified results are the same in [s] and [s']. *)
Definition same_modified (s s' : State) : Prop :=
  modifiedPrediction s' = modifiedPrediction s
  /\ modifiedExplanation s' = modifiedExplanation s.

(** The conditions of the page's conditional rendering. *)
Definition rendersForm (s : State) : bool := JS.truthy (originalData s).

Definition rendersResetButton (s : State) : bool := JS.truthy (originalData s).

Definition rendersComparison (s : State) : bool :=
  JS.truthy (originalData s)
  && JS.truthy (originalPrediction s)
  && JS.truthy (modifiedPrediction s).

Definition rendersError (s : State) : bool := JS.truthy_string (error s).

(** The page with the calls its handlers have handed to [debouncedPredict]
    and the requests put on the wire so far. *)
Record Page : Type := {
  state : State;
  pending : list Scheduled;
  issued : list Api.Request
}.

Definition start : Page :=
  {| state := initial; pending := []; issued := [] |}.

(** What can happen to the page: the form reports a change, the oldest
    scheduled call runs and settles, the oldest scheduled call is replaced
    before it runs, the reset button or the close button of the error alert
    is clicked. *)
Inductive Event : Type :=
| FormChange (data : StudentInput) (changedFieldsList : list string)
| CallSettles (first : Api.first_settled)
    (predict : Api.transport PredictionResponse.t)
    (explain : Api.transport ExplanationResponse.t)
| CallReplaced
| ClickReset
| CloseError.

Definition step (e : Event) (p : Page) : Page :=
  match e with
  | FormChange data changedFieldsList =>
      let '(s', scheduled) :=
        handleModifiedDataChange data changedFieldsList (state p) in
      {| state := s'; pending := pending p ++ scheduled; issued := issued p |}
  | CallSettles first predict explain =>
      match pending p with
      | [] => p
      | DebouncedPredict data isModified :: rest =>
          {| state :=
               debouncedPredict data isModified first predict explain
                 (state p);
             pending := rest;
             issued := issued p ++ requests data |}
      end
  | CallReplaced =>
      {| state := state p; pending := tl (pending p); issued := issued p |}
  | ClickReset =>
      {| state := handleReset (state p); pending := pending p;
         issued := issued p |}
  | CloseError =>
      {| state := setError None (state p); pending := pending p;
         issued := issued p |}
  end.

Definition run (events : list Event) (p : Page) : Page :=
  fold_left (fun p e => step e p) events p.

(** The baseline record and its two results are present together or not at
    all, and so are the two modified results. *)
Definition paired (s : State) : Prop :=
  (originalData s = None <-> originalPrediction s = None)
  /\ (originalData s = None <-> originalExplanation s = None)
  /\ (modifiedPrediction s = None <-> modifiedExplanation s = None).

(** The scheduled call is a what-if call ([isModified] is true). *)
Definition whatIfCall (c : Scheduled) : bool :=
  match c with
  | DebouncedPredict _ isModified => isModified
  end.

(** The event is not a click on reset. *)
Definition notReset (e : Event) : bool :=
  match e with
  | ClickReset => false
  | _ => true
  end.

(** The event is neither a click on reset nor on the alert's close button. *)
Definition keepsError (e : Event) : bool :=
  match e with
  | ClickReset | CloseError => false
  | _ => true
  end.

End WhatIfAnalysis.

(** ** [StudentInputForm]: the capture form's handlers *)

Module StudentInputForm.

Record State : Type := {
  prediction : option PredictionResponse.t;
  explanation : option ExplanationResponse.t;
  isLoading : bool;
  isExplaining : bool;
  error : option string
}.

Definition initial : State :=
  {| prediction := None; explanation := None; isLoading := false;
     isExplaining := false; error := None |}.

(** [onSubmit] up to its [await]. *)
Definition onSubmit_begin (s : State) : State :=
  {| prediction := None; explanation := None; isLoading := true;
     isExplaining := isExplaining s; error := None |}.

(** [onSubmit] from the settlement of the call on. *)
Definition onSubmit_settle (t : Api.transport PredictionResponse.t)
    (s : State) : State :=
  match Api.predictStudentPerformance t with
  | Api.Resolved result =>
      {| prediction := Some result; explanation := explanation s;
         isLoading := false; isExplaining := isExplaining s;
         error := error s |}
  | Api.Rejected err =>
      {| prediction := prediction s; explanation := explanation s;
         isLoading := false; isExplaining := isExplaining s;
         error := Some (Api.message_or "Prediction failed" err) |}
  end.


Definition onSubmit_requests (data : StudentInput) : list Api.Request :=
  [ Api.predictStudentPerformance_request data ].

(** [handleExplain] up to its [await], past the [if (!prediction) return]. *)
Definition handleExplain_begin (s : State) : State :=
  {| prediction := prediction s; explanation := explanation s;
     isLoading := isLoading s; isExplaining := true; error := None |}.

Definition handleExplain_settle (t : Api.transport ExplanationResponse.t)
    (s : State) : State :=
  match Api.explainPrediction t with
  | Api.Resolved result =>
      {| prediction := prediction s; explanation := Some result;
         isLoading := isLoading s; isExplaining := false; error := error s |}
  | Api.Rejected err =>
      {| prediction := prediction s; explanation := explanation s;
         isLoading := isLoading s; isExplaining := false;
         error := Some (Api.message_or "Explanation failed" err) |}
  end.



(** The "Reset Form" button. *)
Definition resetForm (s : State) : State :=
  {| prediction := None; explanation := None; isLoading := isLoading s;
     isExplaining := isExplaining s; error := None |}.

(** What the form renders under its buttons. *)
Definition rendersPredictionCard (s : State) : bool :=
  JS.truthy (prediction s).

Definition rendersExplainButton (s : State) : bool :=
  JS.truthy (prediction s).


(** The steps of the form, in any interleaving. *)
Inductive Event : Type :=
| SubmitBegins
| SubmitSettles (t : Api.transport PredictionResponse.t)
| ExplainBegins
| ExplainSettles (t : Api.transport ExplanationResponse.t)
| ClickResetForm.

Definition step (e : Event) (s : State) : State :=
  match e with
  | SubmitBegins => onSubmit_begin s
  | SubmitSettles t => onSubmit_settle t s
  | ExplainBegins =>
      if negb (JS.truthy (prediction s)) then s else handleExplain_begin s
  | ExplainSettles t => handleExplain_settle t s
  | ClickResetForm => resetForm s
  end.

Definition run (events : list Event) (s : State) : State :=
  fold_left (fun s e => step e s) events s.

End StudentInputForm.

(** ** Slider ranges and validation bounds *)

Module Schema.

Record Range : Type := { min : Q; max : Q; step : Q }.

(** [FIELD_RANGES]. *)
Definition FIELD_RANGES : JS.object Range :=
  [ ("total_clicks", {| min := 0; max := 500; step := 10 |});
    ("avg_clicks_per_session", {| min := 0; max := 100; step := 1 |});
    ("click_variability", {| min := 0; max := 50; step := 5 # 10 |});
    ("total_sessions", {| min := 0; max := 50; step := 1 |});
    ("first_access_day", {| min := -30; max := 30; step := 1 |});
    ("last_access_day", {| min := 0; max := 270; step := 1 |});
    ("active_days", {| min := 0; max := 180; step := 1 |});
    ("engagement_duration", {| min := 0; max := 500; step := 5 |});
    ("daily_engagement_rate", {| min := 0; max := 1; step := 1 # 100 |});
    ("avg_assessment_score", {| min := 0; max := 100; step := 1 |});
    ("score_consistency", {| min := 0; max := 1; step := 1 # 100 |});
    ("total_assessments", {| min := 0; max := 20; step := 1 |});
    ("first_submission", {| min := -30; max := 30; step := 1 |});
    ("last_submission", {| min := 0; max := 270; step := 1 |});
    ("banked_assessments", {| min := 0; max := 10; step := 1 |});
    ("studied_credits", {| min := 30; max := 240; step := 30 |});
    ("num_of_prev_attempts", {| min := 0; max := 6; step := 1 |}) ].

(** The [.min(a)] and [.max(b)] of a [yup.number()] field. *)
Record Bounds : Type := { lower : option Q; upper : option Q }.

(** The numeric fields of [validationSchema] with their bounds. *)
Definition numberBounds : JS.object Bounds :=
  [ ("id_student", {| lower := Some 1%Q; upper := None |});
    ("num_of_prev_attempts", {| lower := Some 0%Q; upper := Some 10%Q |});
    ("studied_credits", {| lower := Some 30%Q; upper := Some 240%Q |});
    ("total_clicks", {| lower := Some 0%Q; upper := None |});
    ("avg_clicks_per_session", {| lower := Some 0%Q; upper := None |});
    ("click_variability", {| lower := Some 0%Q; upper := None |});
    ("total_sessions", {| lower := Some 0%Q; upper := None |});
    ("first_access_day", {| lower := None; upper := None |});
    ("last_access_day", {| lower := Some 0%Q; upper := None |});
    ("active_days", {| lower := Some 0%Q; upper := None |});
    ("engagement_duration", {| lower := Some 0%Q; upper := None |});
    ("daily_engagement_rate", {| lower := Some 0%Q; upper := Some 1%Q |});
    ("avg_assessment_score", {| lower := Some 0%Q; upper := Some 100%Q |});
    ("score_consistency", {| lower := Some 0%Q; upper := Some 1%Q |});
    ("total_assessments", {| lower := Some 0%Q; upper := None |});
    ("first_submission", {| lower := None; upper := None |});
    ("last_submission", {| lower := Some 0%Q; upper := None |});
    ("banked_assessments", {| lower := Some 0%Q; upper := None |}) ].

(** A number meets the [.min]/[.max] tests of its field. *)
Definition within (b : Bounds) (v : Q) : bool :=
  match lower b with Some a => Qle_bool a v | None => true end
  && match upper b with Some c => Qle_bool v c | None => true end.

(** The bounds test of the schema on a numeric field; a field the schema does
    not list as a number has no such test. *)
Definition passesBounds (field : string) (v : Q) : bool :=
  match JS.lookup numberBounds field with
  | Some b => within b v
  | None => true
  end.

End Schema.

(** ** Ranking order *)

(** [l] is in descending order of [key]: every element's key is at most the
    key of every element before it. *)
Definition descending_by {A} (key : A -> Q) (l : list A) : Prop :=
  StronglySorted (fun a b => (key b <= key a)%Q) l.


(** ** Sample data *)

Module Samples.

(** The default values of the capture form. *)
Definition baseline : StudentInput :=
  [ ("id_student", JS.Num 12345);
    ("code_module", JS.Str "AAA");
    ("code_presentation", JS.Str "2013J");
    ("gender", JS.Str "M");
    ("region", JS.Str "East Anglian Region");
    ("highest_education", JS.Str "HE Qualification");
    ("imd_band", JS.Str "90-100%");
    ("age_band", JS.Str "35-55");
    ("num_of_prev_attempts", JS.Num 0);
    ("studied_credits", JS.Num 60);
    ("disability", JS.Str "N");
    ("completed_course", JS.Bool true);
    ("withdrawal_status", JS.Bool false);
    ("total_clicks", JS.Num 150);
    ("avg_clicks_per_session", JS.Num 25);
    ("click_variability", JS.Num 12);
    ("total_sessions", JS.Num 8);
    ("first_access_day", JS.Num 5);
    ("last_access_day", JS.Num 45);
    ("active_days", JS.Num 25);
    ("engagement_duration", JS.Num 120);
    ("daily_engagement_rate", JS.Num (75 # 100));
    ("avg_assessment_score", JS.Num 85);
    ("score_consistency", JS.Num (8 # 10));
    ("total_assessments", JS.Num 4);
    ("first_submission", JS.Num 10);
    ("last_submission", JS.Num 40);
    ("banked_assessments", JS.Num 1) ].

(** The baseline with [total_clicks] moved to 200 by its slider. *)
Definition edited : StudentInput :=
  WhatIfInputForm.setValue baseline "total_clicks" (JS.Num 200).

(** The SHAP mappings of the worked example. *)
Definition originalShap : JS.object Q :=
  [ ("total_clicks", 5 # 100); ("avg_assessment_score", 30 # 100) ].

Definition modifiedShap : JS.object Q :=
  [ ("total_clicks", 12 # 100); ("avg_assessment_score", 30 # 100) ].

Definition noLime : option ExplanationResponse.LimeExplanation := None.

Definition explanationOf (shap : option (JS.object Q))
    (items : option (list FeatureImportance.t)) : ExplanationResponse.t :=
  {| ExplanationResponse.student_id := 12345;
     ExplanationResponse.prediction := Pass;
     ExplanationResponse.shap_values := shap;
     ExplanationResponse.lime_explanation := noLime;
     ExplanationResponse.feature_importance := items |}.

Definition originalExplanation : ExplanationResponse.t :=
  explanationOf (Some originalShap) None.

Definition modifiedExplanation : ExplanationResponse.t :=
  explanationOf (Some modifiedShap) None.

(** An explanation whose SHAP mapping is missing. *)
Definition withoutShap : ExplanationResponse.t := explanationOf None None.

Definition importanceItem (name : string) (imp : Q) : FeatureImportance.t :=
  {| FeatureImportance.feature := name;
     FeatureImportance.importance := imp;
     FeatureImportance.direction := positive;
     FeatureImportance.shap_value := imp;
     FeatureImportance.lime_value := imp |}.

(** An explanation whose importance list does not arrive in descending
    order. *)
Definition unsortedImportance : ExplanationResponse.t :=
  explanationOf (Some originalShap)
    (Some [ importanceItem "total_clicks" (1 # 10);
            importanceItem "avg_assessment_score" (5 # 10) ]).

Definition somePrediction : PredictionResponse.t :=
  {| PredictionResponse.prediction := Pass;
     PredictionResponse.probabilities :=
       [ ("Distinction", 1 # 10); ("Pass", 6 # 10);
         ("Fail", 2 # 10); ("Withdrawn", 1 # 10) ];
     PredictionResponse.confidence := 6 # 10;
     PredictionResponse.student_id := 12345 |}.

(** A 422 reply carrying a [detail] string. *)
Definition validationFailure : Api.AxiosError :=
  {| Api.response :=
       Some {| Api.status := 422;
               Api.detail := Some "gender must be one of M, F" |};
     Api.code := Some "ERR_BAD_REQUEST";
     Api.axios_message := "Request failed with status code 422" |}.

(** A 500 reply. *)
Definition serverFault : Api.AxiosError :=
  {| Api.response := Some {| Api.status := 500; Api.detail := None |};
     Api.code := Some "ERR_BAD_RESPONSE";
     Api.axios_message := "Request failed with status code 500" |}.

(** A page that has a baseline and one earlier what-if result. *)
Definition withResults : WhatIfAnalysis.State :=
  {| WhatIfAnalysis.originalData := Some baseline;
     WhatIfAnalysis.originalPrediction := Some somePrediction;
     WhatIfAnalysis.modifiedPrediction := Some somePrediction;
     WhatIfAnalysis.originalExplanation := Some originalExplanation;
     WhatIfAnalysis.modifiedExplanation := Some modifiedExplanation;
     WhatIfAnalysis.isLoading := true;
     WhatIfAnalysis.error := None;
     WhatIfAnalysis.changedFields := ["total_clicks"] |}.

(** A 422 reply without a [detail], and a 503 reply. *)
Definition validationFailureNoDetail : Api.AxiosError :=
  {| Api.response := Some {| Api.status := 422; Api.detail := None |};
     Api.code := Some "ECONNABORTED";
     Api.axios_message := "Request failed with status code 422" |}.

Definition serviceUnavailable : Api.AxiosError :=
  {| Api.response := Some {| Api.status := 503; Api.detail := None |};
     Api.code := Some "ERR_BAD_RESPONSE";
     Api.axios_message := "Request failed with status code 503" |}.

End Samples.

(** * Properties *)

(** ** Arrays, sets and objects *)

Section ArrayFacts.

Context {A B : Type}.

Lemma forEach_push_if (p : A -> bool) (l : list A) (init : list A) :
  JS.forEach l (fun x acc => if p x then JS.push acc x else acc) init
  = init ++ filter p l.
Proof.
  unfold JS.forEach, JS.push.
  revert init; induction l as [|x l IH]; intros init; simpl.
  - now rewrite app_nil_r.
  - rewrite IH. destruct (p x); [now rewrite <- app_assoc|reflexivity].
Qed.

Lemma forEach_push_map (f : A -> B) (l : list A) (init : list B) :
  JS.forEach l (fun x acc => JS.push acc (f x)) init = init ++ map f l.
Proof.
  unfold JS.forEach, JS.push.
  revert init; induction l as [|x l IH]; intros init; simpl.
  - now rewrite app_nil_r.
  - rewrite IH. now rewrite <- app_assoc.
Qed.

Lemma slice0_length (n : nat) (l : list A) : (List.length (JS.slice0 n l) <= n)%nat.
Proof. unfold JS.slice0. rewrite length_firstn. lia. Qed.

Lemma slice0_incl (n : nat) (l : list A) x : In x (JS.slice0 n l) -> In x l.
Proof.
  unfold JS.slice0. revert l; induction n as [|n IH]; intros [|y l]; simpl;
    try tauto.
  intros [->|H]; [now left|right; auto].
Qed.

End ArrayFacts.

Lemma includes_In (l : list string) (x : string) :
  JS.includes l x = true <-> In x l.
Proof.
  unfold JS.includes. rewrite existsb_exists. split.
  - intros (y & Hy & E). apply String.eqb_eq in E. now subst.
  - intros H. exists x. split; [assumption|apply String.eqb_refl].
Qed.

Lemma includes_not_In (l : list string) (x : string) :
  JS.includes l x = false <-> ~ In x l.
Proof.
  rewrite <- includes_In. destruct (JS.includes l x); split; intros H.
  - discriminate.
  - now destruct H.
  - discriminate.
  - reflexivity.
Qed.

Lemma Set_add_In (s : list string) (x y : string) :
  In y (JS.Set_add s x) <-> In y s \/ y = x.
Proof.
  unfold JS.Set_add, JS.push. destruct (JS.includes s x) eqn:E.
  - apply includes_In in E. split; [tauto|]. intros [H| ->]; assumption.
  - rewrite in_app_iff. simpl. intuition.
Qed.

Lemma Set_add_NoDup (s : list string) (x : string) :
  NoDup s -> NoDup (JS.Set_add s x).
Proof.
  intros H. unfold JS.Set_add, JS.push. destruct (JS.includes s x) eqn:E.
  - assumption.
  - apply includes_not_In in E. apply NoDup_app; auto.
    + constructor; [intros []|constructor].
    + intros y Hy [<-|[]]. contradiction.
Qed.

Lemma fold_Set_add_In (l s : list string) (y : string) :
  In y (fold_left JS.Set_add l s) <-> In y s \/ In y l.
Proof.
  revert s; induction l as [|x l IH]; intros s; simpl.
  - tauto.
  - rewrite IH, Set_add_In. split; intros H; intuition (subst; auto).
Qed.

Lemma fold_Set_add_NoDup (l s : list string) :
  NoDup s -> NoDup (fold_left JS.Set_add l s).
Proof.
  revert s; induction l as [|x l IH]; intros s H; simpl.
  - assumption.
  - apply IH. now apply Set_add_NoDup.
Qed.

Lemma new_Set_In (l : list string) (y : string) :
  In y (JS.new_Set l) <-> In y l.
Proof. unfold JS.new_Set. rewrite fold_Set_add_In. simpl. tauto. Qed.

Lemma new_Set_NoDup (l : list string) : NoDup (JS.new_Set l).
Proof. apply fold_Set_add_NoDup. constructor. Qed.

Lemma strict_eq_refl (v : JS.value) : JS.strict_eq v v = true.
Proof.
  destruct v; simpl.
  - reflexivity.
  - reflexivity.
  - apply Bool.eqb_reflx.
  - apply Qeq_bool_refl.
  - apply String.eqb_refl.
Qed.

Section ObjectFacts.

Context {V : Type}.

Lemma lookup_None (o : JS.object V) (k : string) :
  JS.lookup o k = None <-> ~ In k (JS.keys o).
Proof.
  induction o as [|[k' v] o IH]; simpl.
  - tauto.
  - destruct (String.eqb_spec k' k) as [->|N].
    + split; [discriminate|]. intros H. exfalso. apply H. now left.
    + rewrite IH. split; [intros H [E|I]; [contradiction|auto]|tauto].
Qed.

End ObjectFacts.

Lemma get_absent (o : JS.object JS.value) (k : string) :
  ~ In k (JS.keys o) -> JS.get o k = JS.Undefined.
Proof. intros H. unfold JS.get. apply lookup_None in H. now rewrite H. Qed.

(** ** Changed-field tracking *)

Section ChangedFields.

Import WhatIfInputForm.

Lemma trackChangedFields_filter (formData originalData : StudentInput) :
  trackChangedFields formData originalData
  = filter (fun key =>
              JS.strict_neq (JS.get formData key) (JS.get originalData key))
      (JS.keys formData).
Proof. unfold trackChangedFields. now rewrite forEach_push_if. Qed.

Lemma trackChangedFields_In (formData originalData : StudentInput) k :
  In k (trackChangedFields formData originalData)
  <-> In k (JS.keys formData)
      /\ JS.strict_eq (JS.get formData k) (JS.get originalData k) = false.
Proof.
  rewrite trackChangedFields_filter, filter_In. unfold JS.strict_neq.
  now rewrite negb_true_iff.
Qed.

Lemma get_setValue_same (o : StudentInput) k v :
  JS.get (setValue o k v) k = v.
Proof.
  unfold JS.get. induction o as [|[k' v'] o IH]; simpl.
  - now rewrite String.eqb_refl.
  - destruct (String.eqb_spec k' k) as [->|N]; simpl.
    + now rewrite String.eqb_refl.
    + destruct (String.eqb_spec k' k); [contradiction|exact IH].
Qed.

Lemma StudentInput_fields_NoDup : NoDup StudentInput_fields.
Proof.
  apply (NoDup_count_occ' string_dec). intros x Hx.
  repeat (destruct Hx as [<-|Hx]; [reflexivity|]). destruct Hx.
Qed.

End ChangedFields.

(** C1. For two student records carrying the declared fields, the tracked
    list holds exactly the field names whose values are not strictly equal
    ([!==]), each once; [handleModifiedDataChange] stores that list in place of
    whatever [changedFields] held before; and a field that is edited and then
    set back to its baseline value is not in the list computed afterwards. *)
Theorem changed_fields_exact :
  forall formData originalData : StudentInput,
    StudentRecord formData ->
    StudentRecord originalData ->
    let changed := WhatIfInputForm.trackChangedFields formData originalData in
    (forall k,
        In k changed
        <-> JS.strict_eq (JS.get formData k) (JS.get originalData k) = false)
    /\ NoDup changed
    /\ (forall s,
          WhatIfAnalysis.changedFields
            (fst (WhatIfAnalysis.handleModifiedDataChange formData changed s))
          = changed)
    /\ (forall k v,
          let edited := WhatIfInputForm.setValue formData k v in
          let restored := WhatIfInputForm.resetField edited originalData k in
          ~ In k (WhatIfInputForm.trackChangedFields restored originalData)).
Proof.
  intros formData originalData HA HB changed. subst changed.
  repeat split.
  - intros H. now apply trackChangedFields_In in H.
  - intros H. apply trackChangedFields_In. split; [|assumption].
    destruct (in_dec string_dec k (JS.keys formData)) as [I|N]; [assumption|].
    exfalso.
    assert (NB : ~ In k (JS.keys originalData)).
    { intros I. apply N. apply (Permutation_in k (Permutation_sym HA)).
      apply (Permutation_in k HB I). }
    rewrite (get_absent _ _ N), (get_absent _ _ NB) in H. discriminate.
  - rewrite trackChangedFields_filter. apply NoDup_filter.
    apply (Permutation_NoDup (Permutation_sym HA)).
    apply StudentInput_fields_NoDup.
  - intros s. unfold WhatIfAnalysis.handleModifiedDataChange.
    destruct (JS.truthy (WhatIfAnalysis.originalData s)); reflexivity.
  - intros k v edited restored H. apply trackChangedFields_In in H.
    destruct H as [_ H]. subst restored. unfold WhatIfInputForm.resetField in H.
    rewrite get_setValue_same, strict_eq_refl in H. discriminate.
Qed.

Lemma changed_fields_exact_witness :
  StudentRecord Samples.edited /\ StudentRecord Samples.baseline
  /\ WhatIfInputForm.trackChangedFields Samples.edited Samples.baseline
     = ["total_clicks"]
  /\ NoDup (WhatIfInputForm.trackChangedFields Samples.edited Samples.baseline).
Proof.
  assert (HA : StudentRecord Samples.edited) by apply Permutation_refl.
  assert (HB : StudentRecord Samples.baseline) by apply Permutation_refl.
  repeat split; try assumption.
  exact (proj1 (proj2 (changed_fields_exact _ _ HA HB))).
Defined.

(** A text field hands the form the typed text, so retyping the baseline's
    digits into [id_student] still reports the field: a string is never
    strictly equal to a number. *)
Example retyped_number_is_changed :
  WhatIfInputForm.trackChangedFields
    (WhatIfInputForm.setValue Samples.baseline "id_student" (JS.Str "12345"))
    Samples.baseline
  = ["id_student"].
Proof. reflexivity. Qed.

(** ** Sorting *)

Section SortFacts.

Context {A : Type} (key : A -> Q).

(** Every comparator in the components has the shape [key b - key a]. *)
Local Abbreviation cmp := (fun a b : A => (key b - key a)%Q).

Lemma cmp_le_0 (a b : A) : Qle_bool (cmp a b) 0 = true <-> (key b <= key a)%Q.
Proof.
  rewrite Qle_bool_iff. split; intros H; lra.
Qed.

Lemma sort_insert_perm (x : A) (l : list A) :
  Permutation (JS.sort_insert cmp x l) (x :: l).
Proof.
  induction l as [|y l IH]; simpl.
  - apply Permutation_refl.
  - destruct (Qle_bool (cmp x y) 0).
    + apply Permutation_refl.
    + apply perm_trans with (y :: x :: l).
      * now apply perm_skip.
      * apply perm_swap.
Qed.

Lemma sort_perm (l : list A) : Permutation (JS.sort cmp l) l.
Proof.
  unfold JS.sort. induction l as [|x l IH]; simpl.
  - apply perm_nil.
  - apply perm_trans with (x :: fold_right (JS.sort_insert cmp) [] l).
    + apply sort_insert_perm.
    + now apply perm_skip.
Qed.

Lemma sort_insert_descending (x : A) (l : list A) :
  descending_by key l -> descending_by key (JS.sort_insert cmp x l).
Proof.
  unfold descending_by. induction 1 as [|y l Hs IH Hy]; simpl.
  - constructor; constructor.
  - destruct (Qle_bool (cmp x y) 0) eqn:E.
    + apply cmp_le_0 in E. constructor.
      * now constructor.
      * constructor; [assumption|].
        apply Forall_impl with (2 := Hy). intros b Hb.
        now apply Qle_trans with (key y).
    + constructor; [assumption|].
      apply Forall_forall. intros b Hb.
      apply (Permutation_in b (sort_insert_perm x l)) in Hb.
      destruct Hb as [<-|Hb].
      * apply Qlt_le_weak, Qnot_le_lt. intros H.
        apply cmp_le_0 in H. congruence.
      * rewrite Forall_forall in Hy. now apply Hy.
Qed.

Lemma sort_descending (l : list A) : descending_by key (JS.sort cmp l).
Proof.
  unfold JS.sort. induction l as [|x l IH]; simpl.
  - constructor.
  - now apply sort_insert_descending.
Qed.

Lemma descending_slice0 (n : nat) (l : list A) :
  descending_by key l -> descending_by key (JS.slice0 n l).
Proof.
  unfold descending_by, JS.slice0. intros H. revert n.
  induction H as [|y l Hs IH Hy]; intros [|n]; simpl; try constructor.
  - apply IH.
  - apply Forall_forall. intros b Hb. rewrite Forall_forall in Hy.
    apply Hy. exact (slice0_incl n l b Hb).
Qed.

End SortFacts.

(** ** Comparison rows *)

Section ComparisonRows.

Import ComparisonView.

Lemma get_or_zero_absent (o : JS.object Q) (f : string) :
  ~ In f (JS.keys o) -> JS.get_or_zero o f = 0%Q.
Proof.
  intros H. unfold JS.get_or_zero. apply lookup_None in H. now rewrite H.
Qed.

Lemma get_or_zero_present (o : JS.object Q) (f : string) (v : Q) :
  JS.lookup o f = Some v -> (JS.get_or_zero o f == v)%Q.
Proof.
  intros H. unfold JS.get_or_zero. rewrite H.
  destruct (Qeq_bool v 0) eqn:E.
  - apply Qeq_bool_iff in E. now symmetry.
  - reflexivity.
Qed.

Lemma getComparisonData_present
    (oe me : ExplanationResponse.t) (originalShap modifiedShap : JS.object Q)
    (changedFields : list string) :
  ExplanationResponse.shap_values oe = Some originalShap ->
  ExplanationResponse.shap_values me = Some modifiedShap ->
  getComparisonData (Some oe) (Some me) changedFields
  = JS.Normal
      (JS.slice0 10
         (JS.sort byAbsChange
            (map (comparisonRow originalShap modifiedShap changedFields)
               (JS.new_Set (JS.keys originalShap ++ JS.keys modifiedShap))))).
Proof.
  intros Ho Hm. unfold getComparisonData, JS.member, JS.Object_keys. simpl.
  rewrite Ho, Hm. simpl. now rewrite forEach_push_map.
Qed.

Lemma getComparisonData_guard oe me changedFields :
  JS.truthy (JS.opt_member oe ExplanationResponse.shap_values)
  && JS.truthy (JS.opt_member me ExplanationResponse.shap_values) = false ->
  getComparisonData oe me changedFields = JS.Normal [].
Proof.
  intros H. unfold getComparisonData. rewrite <- negb_andb, H. reflexivity.
Qed.

(** The comparison never throws, whatever it is given. *)
Lemma getComparisonData_total oe me changedFields :
  exists rows, getComparisonData oe me changedFields = JS.Normal rows.
Proof.
  destruct (JS.opt_member oe ExplanationResponse.shap_values) as [os|] eqn:Ho.
  - destruct (JS.opt_member me ExplanationResponse.shap_values)
      as [ms|] eqn:Hm.
    + destruct oe as [oe|]; [|discriminate].
      destruct me as [me|]; [|discriminate].
      eexists. apply getComparisonData_present; eassumption.
    + exists []. apply getComparisonData_guard. rewrite Ho, Hm. reflexivity.
  - exists []. apply getComparisonData_guard. rewrite Ho. reflexivity.
Qed.

End ComparisonRows.

(** C2. With both SHAP mappings present, the comparison enumerates each
    feature name of either mapping once; the row of a feature holds the
    mapping's value on each side, 0 where the feature is absent, their
    difference [modified - original] and the flag "the feature name is in the
    changed-field list"; the rows are put in descending order of the absolute
    change and the result is the first 10 of them at most. *)
Theorem comparison_rows_ranked :
  forall (oe me : ExplanationResponse.t)
         (originalShap modifiedShap : JS.object Q)
         (changedFields : list string),
    ExplanationResponse.shap_values oe = Some originalShap ->
    ExplanationResponse.shap_values me = Some modifiedShap ->
    exists (allFeatures : list string) (ranked : list ComparisonView.Row),
      NoDup allFeatures
      /\ (forall f,
            In f allFeatures
            <-> In f (JS.keys originalShap) \/ In f (JS.keys modifiedShap))
      /\ Permutation ranked
           (map (ComparisonView.comparisonRow originalShap modifiedShap
                   changedFields) allFeatures)
      /\ descending_by ComparisonView.absChange ranked
      /\ ComparisonView.getComparisonData (Some oe) (Some me) changedFields
         = JS.Normal (firstn 10 ranked)
      /\ (List.length (firstn 10 ranked) <= 10)%nat
      /\ descending_by ComparisonView.absChange (firstn 10 ranked)
      /\ (forall f,
            let r := ComparisonView.comparisonRow originalShap modifiedShap
                       changedFields f in
            (forall v, JS.lookup originalShap f = Some v ->
                       (ComparisonView.original r == v)%Q)
            /\ (~ In f (JS.keys originalShap) ->
                ComparisonView.original r = 0%Q)
            /\ (forall v, JS.lookup modifiedShap f = Some v ->
                          (ComparisonView.modified r == v)%Q)
            /\ (~ In f (JS.keys modifiedShap) ->
                ComparisonView.modified r = 0%Q)
            /\ ComparisonView.change r
               = (ComparisonView.modified r - ComparisonView.original r)%Q
            /\ (ComparisonView.isChanged r = true <-> In f changedFields)).
Proof.
  intros oe me os ms cf Ho Hm.
  exists (JS.new_Set (JS.keys os ++ JS.keys ms)).
  exists (JS.sort ComparisonView.byAbsChange
            (map (ComparisonView.comparisonRow os ms cf)
               (JS.new_Set (JS.keys os ++ JS.keys ms)))).
  split; [apply new_Set_NoDup|].
  split; [intros f; now rewrite new_Set_In, in_app_iff|].
  split; [apply (sort_perm ComparisonView.absChange)|].
  split; [apply (sort_descending ComparisonView.absChange)|].
  split; [now apply getComparisonData_present|].
  split; [apply (slice0_length 10)|].
  split; [apply (descending_slice0 ComparisonView.absChange 10),
            (sort_descending ComparisonView.absChange)|].
  intros f r. subst r. simpl.
  split; [apply get_or_zero_present|].
  split; [apply get_or_zero_absent|].
  split; [apply get_or_zero_present|].
  split; [apply get_or_zero_absent|].
  split; [reflexivity|apply includes_In].
Qed.

Lemma comparison_rows_ranked_witness :
  ExplanationResponse.shap_values Samples.originalExplanation
  = Some Samples.originalShap
  /\ ExplanationResponse.shap_values Samples.modifiedExplanation
     = Some Samples.modifiedShap
  /\ exists ranked,
       ComparisonView.getComparisonData (Some Samples.originalExplanation)
         (Some Samples.modifiedExplanation) ["total_clicks"]
       = JS.Normal (firstn 10 ranked)
       /\ descending_by ComparisonView.absChange (firstn 10 ranked).
Proof.
  split; [reflexivity|]. split; [reflexivity|].
  destruct (comparison_rows_ranked Samples.originalExplanation
              Samples.modifiedExplanation Samples.originalShap
              Samples.modifiedShap ["total_clicks"] eq_refl eq_refl)
    as (allFeatures & ranked & _ & _ & _ & _ & Hout & _ & Hsorted & _).
  exists ranked. split; assumption.
Defined.

(** The worked example: [total_clicks] moves by 0.07 and is flagged, and it
    ranks above the unchanged [avg_assessment_score]. *)
Example comparison_rows_example :
  exists top second,
    ComparisonView.getComparisonData (Some Samples.originalExplanation)
      (Some Samples.modifiedExplanation) ["total_clicks"]
    = JS.Normal [top; second]
    /\ ComparisonView.feature top = "TOTAL CLICKS"
    /\ (ComparisonView.change top == 7 # 100)%Q
    /\ ComparisonView.isChanged top = true
    /\ ComparisonView.feature second = "AVG ASSESSMENT SCORE"
    /\ (ComparisonView.change second == 0)%Q
    /\ ComparisonView.isChanged second = false.
Proof.
  do 2 eexists. split; [vm_compute; reflexivity|].
  repeat split; vm_compute; reflexivity.
Qed.

(** C3. When the baseline explanation or the modified explanation has no
    SHAP mapping (the explanation is null, or its [shap_values] is missing),
    the comparison completes normally with the empty list. *)
Theorem comparison_rows_absent :
  forall (originalExplanation modifiedExplanation
            : option ExplanationResponse.t)
         (changedFields : list string),
    JS.opt_member originalExplanation ExplanationResponse.shap_values = None
    \/ JS.opt_member modifiedExplanation ExplanationResponse.shap_values
       = None ->
    ComparisonView.getComparisonData originalExplanation modifiedExplanation
      changedFields
    = JS.Normal [].
Proof.
  intros oe me cf H. apply getComparisonData_guard.
  destruct H as [H|H]; rewrite H; simpl.
  - reflexivity.
  - apply andb_false_r.
Qed.

Lemma comparison_rows_absent_witness :
  ComparisonView.getComparisonData (Some Samples.originalExplanation)
    (Some Samples.withoutShap) ["total_clicks"]
  = JS.Normal []
  /\ ComparisonView.getComparisonData None
       (Some Samples.modifiedExplanation) []
     = JS.Normal [].
Proof.
  split.
  - apply (comparison_rows_absent (Some Samples.originalExplanation)
             (Some Samples.withoutShap) ["total_clicks"]).
    right. reflexivity.
  - apply (comparison_rows_absent None (Some Samples.modifiedExplanation) []).
    left. reflexivity.
Defined.

(** ** Single-sided rankings *)

Section SingleSided.

Import ExplanationChart.

Lemma descending_by_map {A B} (f : A -> B) (key : B -> Q) (l : list A) :
  descending_by key (map f l) <-> descending_by (fun a => key (f a)) l.
Proof.
  unfold descending_by. induction l as [|x l IH]; simpl.
  - split; constructor.
  - split; intros H; inversion H as [|? ? Hs Hf]; subst; constructor.
    + now apply IH.
    + rewrite Forall_map in Hf. exact Hf.
    + now apply IH.
    + rewrite Forall_map. exact Hf.
Qed.

Lemma ranked_entries (es : list (string * Q)) :
  Permutation (JS.sort byAbsValue (map chartRow es)) (map chartRow es)
  /\ descending_by absValue (JS.sort byAbsValue (map chartRow es)).
Proof.
  split; [apply (sort_perm absValue)|apply (sort_descending absValue)].
Qed.

Lemma prepareSHAPData_eq (explanation : option ExplanationResponse.t) :
  prepareSHAPData explanation
  = JS.Normal
      (JS.slice0 10
         (JS.sort byAbsValue
            (map chartRow
               (present_or_empty
                  (JS.opt_member explanation
                     ExplanationResponse.shap_values))))).
Proof.
  unfold prepareSHAPData, JS.member, JS.Object_entries.
  destruct explanation as [e|]; simpl; [|reflexivity].
  destruct (ExplanationResponse.shap_values e) as [m|]; reflexivity.
Qed.

Lemma prepareLIMEData_eq (explanation : option ExplanationResponse.t) :
  prepareLIMEData explanation
  = JS.Normal
      (JS.slice0 10
         (JS.sort byAbsValue
            (map chartRow (present_or_empty (top_features_of explanation))))).
Proof.
  unfold prepareLIMEData, top_features_of, JS.member, JS.Object_entries.
  destruct explanation as [e|]; simpl; [|reflexivity].
  destruct (ExplanationResponse.lime_explanation e) as [le|]; simpl;
    [|reflexivity].
  destruct (ExplanationResponse.lime le) as [l|]; simpl; [|reflexivity].
  destruct (ExplanationResponse.top_features l) as [m|]; reflexivity.
Qed.

Lemma prepareFeatureImportanceData_eq
    (explanation : option ExplanationResponse.t) :
  prepareFeatureImportanceData explanation
  = JS.Normal
      (map importanceRow
         (JS.slice0 10
            (present_or_empty
               (JS.opt_member explanation
                  ExplanationResponse.feature_importance)))).
Proof.
  unfold prepareFeatureImportanceData, JS.member.
  destruct explanation as [e|]; simpl; [|reflexivity].
  destruct (ExplanationResponse.feature_importance e) as [l|]; reflexivity.
Qed.

End SingleSided.

(** C4, as the claim states it, fails on the feature-importance list: two
    entries that arrive in ascending order of importance are returned in that
    same order. *)
Lemma single_sided_counterexample :
  exists rows,
    ExplanationChart.prepareFeatureImportanceData
      (Some Samples.unsortedImportance)
    = JS.Normal rows
    /\ (List.length rows <= 10)%nat
    /\ ~ descending_by ExplanationChart.absImportance rows.
Proof.
  eexists. split; [reflexivity|]. split; [simpl; lia|].
  intros H. inversion H as [|? ? _ Hf]; subst.
  inversion Hf as [|? ? Hle _]; subst.
  vm_compute in Hle. now apply Hle.
Qed.

(** C4, amended. For every explanation (or none), the SHAP ranking and the
    LIME ranking each return at most 10 rows, the first rows of the
    mapping's entries put in descending order of the absolute value; a row's
    [absValue] is the absolute value of its entry.  The feature-importance
    ranking returns the first 10 entries at most of the list in the order
    the list arrives in, so its rows are in descending order of importance
    exactly when those entries already are. *)
Theorem single_sided_rankings :
  forall explanation : option ExplanationResponse.t,
    (exists ranked,
        Permutation ranked
          (map ExplanationChart.chartRow
             (ExplanationChart.present_or_empty
                (JS.opt_member explanation ExplanationResponse.shap_values)))
        /\ descending_by ExplanationChart.absValue ranked
        /\ ExplanationChart.prepareSHAPData explanation
           = JS.Normal (firstn 10 ranked)
        /\ (List.length (firstn 10 ranked) <= 10)%nat
        /\ descending_by ExplanationChart.absValue (firstn 10 ranked))
    /\ (exists ranked,
          Permutation ranked
            (map ExplanationChart.chartRow
               (ExplanationChart.present_or_empty
                  (ExplanationChart.top_features_of explanation)))
          /\ descending_by ExplanationChart.absValue ranked
          /\ ExplanationChart.prepareLIMEData explanation
             = JS.Normal (firstn 10 ranked)
          /\ (List.length (firstn 10 ranked) <= 10)%nat
          /\ descending_by ExplanationChart.absValue (firstn 10 ranked))
    /\ (forall entry,
          ExplanationChart.value (ExplanationChart.chartRow entry) = snd entry
          /\ ExplanationChart.absValue (ExplanationChart.chartRow entry)
             = Qabs (snd entry))
    /\ (let items :=
          firstn 10
            (ExplanationChart.present_or_empty
               (JS.opt_member explanation
                  ExplanationResponse.feature_importance)) in
        let rows := map ExplanationChart.importanceRow items in
        ExplanationChart.prepareFeatureImportanceData explanation
        = JS.Normal rows
        /\ (List.length rows <= 10)%nat
        /\ (descending_by ExplanationChart.absImportance rows
            <-> descending_by
                  (fun item => Qabs (FeatureImportance.importance item))
                  items)).
Proof.
  intros explanation. repeat apply conj.
  - eexists. split; [apply ranked_entries|]. split; [apply ranked_entries|].
    split; [apply prepareSHAPData_eq|].
    split; [apply (slice0_length 10)|].
    apply (descending_slice0 ExplanationChart.absValue 10), ranked_entries.
  - eexists. split; [apply ranked_entries|]. split; [apply ranked_entries|].
    split; [apply prepareLIMEData_eq|].
    split; [apply (slice0_length 10)|].
    apply (descending_slice0 ExplanationChart.absValue 10), ranked_entries.
  - intros [f v]. split; reflexivity.
  - apply prepareFeatureImportanceData_eq.
  - rewrite length_map. apply (slice0_length 10).
  - apply (descending_by_map ExplanationChart.importanceRow
             ExplanationChart.absImportance).
  - apply (descending_by_map ExplanationChart.importanceRow
             ExplanationChart.absImportance).
Qed.

(** ** The API client *)

Section ApiFacts.

Import Api.

(** Whatever the cause, a failed call rejects with the wrapper's own
    message. *)
Lemma wrappers_fixed_message (e : AxiosError) :
  predictStudentPerformance (Failure e)
  = Rejected (NewError "Failed to predict student performance")
  /\ explainPrediction (Failure e)
     = Rejected (NewError "Failed to generate explanation")
  /\ checkHealth (A := unit) (Failure e)
     = Rejected (NewError "Failed to check API health").
Proof. repeat split. Qed.

End ApiFacts.

(** C6, as the claim states it, fails on a 422 reply with a [detail]: the
    interceptor builds a message holding the detail, the wrappers of predict,
    explain and health replace it by their own fixed message, and that
    message, which does not contain the detail, is what the page stores as
    its error. *)
Lemma surfaced_detail_counterexample :
  let detail := "gender must be one of M, F" in
  Api.onResponseError Samples.validationFailure
  = Api.NewError ("Validation Error: " ++ detail)
  /\ Api.predictStudentPerformance (Api.Failure Samples.validationFailure)
     = Api.Rejected (Api.NewError "Failed to predict student performance")
  /\ Api.explainPrediction (Api.Failure Samples.validationFailure)
     = Api.Rejected (Api.NewError "Failed to generate explanation")
  /\ Api.checkHealth (A := unit) (Api.Failure Samples.validationFailure)
     = Api.Rejected (Api.NewError "Failed to check API health")
  /\ String.index 0 detail "Failed to predict student performance" = None
  /\ String.index 0 detail "Failed to generate explanation" = None
  /\ String.index 0 detail "Failed to check API health" = None
  /\ WhatIfAnalysis.error
       (WhatIfAnalysis.debouncedPredict Samples.edited true Api.FirstOfPair
          (Api.Failure Samples.validationFailure)
          (Api.Failure Samples.validationFailure)
          Samples.withResults)
     = Some "Failed to predict student performance".
Proof. repeat split. Qed.

(** C6, amended. For every failing predict, explain or health call, whatever
    its cause (a 422 reply included), the call rejects with the fixed message
    of its operation, and that is the message a component reads from the
    error.  The server's [detail] of a 422 reply is used verbatim only in the
    intermediate error the response interceptor builds, "Validation Error: "
    followed by the detail. *)
Theorem failure_messages :
  forall error : Api.AxiosError,
    (Api.predictStudentPerformance (Api.Failure error)
     = Api.Rejected (Api.NewError "Failed to predict student performance")
     /\ Api.explainPrediction (Api.Failure error)
        = Api.Rejected (Api.NewError "Failed to generate explanation")
     /\ Api.checkHealth (A := unit) (Api.Failure error)
        = Api.Rejected (Api.NewError "Failed to check API health"))
    /\ (forall fallback,
          Api.message_or fallback
            (Api.NewError "Failed to predict student performance")
          = "Failed to predict student performance"
          /\ Api.message_or fallback
               (Api.NewError "Failed to generate explanation")
             = "Failed to generate explanation"
          /\ Api.message_or fallback
               (Api.NewError "Failed to check API health")
             = "Failed to check API health")
    /\ (forall d,
          Api.response error
          = Some {| Api.status := 422; Api.detail := Some d |} ->
          d <> "" ->
          Api.onResponseError error
          = Api.NewError ("Validation Error: " ++ d)).
Proof.
  intros error. split; [apply wrappers_fixed_message|].
  split; [intros fallback; repeat split|].
  intros d H Hd. unfold Api.onResponseError, Api.status_is,
    Api.detail_or_default. rewrite H. simpl.
  destruct (String.eqb_spec d ""); [contradiction|reflexivity].
Qed.

Lemma failure_messages_witness :
  Api.onResponseError Samples.validationFailure
  = Api.NewError "Validation Error: gender must be one of M, F"
  /\ Api.predictStudentPerformance (Api.Failure Samples.validationFailure)
     = Api.Rejected (Api.NewError "Failed to predict student performance").
Proof.
  destruct (failure_messages Samples.validationFailure)
    as ((Hpredict & _) & _ & Hdetail).
  split; [|exact Hpredict].
  apply (Hdetail "gender must be one of M, F" eq_refl). discriminate.
Defined.

(** ** The what-if page *)

Section PageFacts.

Import WhatIfAnalysis.

Lemma debouncedPredict_failed data isModified first predict explain s :
  (exists e, predict = Api.Failure e) \/ (exists e, explain = Api.Failure e) ->
  exists msg,
    (msg = "Failed to predict student performance"
     \/ msg = "Failed to generate explanation")
    /\ debouncedPredict data isModified first predict explain s
       = setIsLoading false (setError (Some msg) s).
Proof.
  unfold debouncedPredict.
  intros [[e ->]|[e ->]]; [destruct explain|destruct predict];
    destruct first; simpl; eexists; split; try reflexivity; auto.
Qed.

Lemma debouncedPredict_predict_first data isModified first e explain s :
  first = Api.FirstOfPair \/ (exists x, explain = Api.Success x) ->
  debouncedPredict data isModified first (Api.Failure e) explain s
  = setIsLoading false
      (setError (Some "Failed to predict student performance") s).
Proof.
  unfold debouncedPredict. intros [->|[x ->]]; [destruct explain|];
    reflexivity.
Qed.

Lemma debouncedPredict_explain_first data isModified first predict e s :
  first = Api.SecondOfPair \/ (exists p, predict = Api.Success p) ->
  debouncedPredict data isModified first predict (Api.Failure e) s
  = setIsLoading false (setError (Some "Failed to generate explanation") s).
Proof.
  unfold debouncedPredict. intros [->|[x ->]]; [destruct predict|];
    reflexivity.
Qed.

End PageFacts.

(** C5, as the claim states it, fails: without a baseline the edit still
    replaces the changed-field list, so the state is not left as it was. *)
Lemma edit_without_baseline_counterexample :
  WhatIfAnalysis.originalData WhatIfAnalysis.initial = None
  /\ fst (WhatIfAnalysis.handleModifiedDataChange Samples.edited
            ["total_clicks"] WhatIfAnalysis.initial)
     <> WhatIfAnalysis.initial.
Proof.
  split; [reflexivity|]. intros H.
  apply (f_equal WhatIfAnalysis.changedFields) in H. discriminate.
Qed.

(** C5, amended. When no baseline exists, an edit schedules no call and
    leaves the page without a baseline; the predictions, the explanations, the
    loading flag and the error are as before, and the changed-field list is
    replaced by the list handed in. *)
Theorem edit_without_baseline :
  forall (data : StudentInput) (changedFieldsList : list string)
         (s : WhatIfAnalysis.State),
    WhatIfAnalysis.originalData s = None ->
    let s' := fst (WhatIfAnalysis.handleModifiedDataChange data
                     changedFieldsList s) in
    snd (WhatIfAnalysis.handleModifiedDataChange data changedFieldsList s) = []
    /\ WhatIfAnalysis.originalData s' = None
    /\ WhatIfAnalysis.same_baseline s s'
    /\ WhatIfAnalysis.same_modified s s'
    /\ WhatIfAnalysis.isLoading s' = WhatIfAnalysis.isLoading s
    /\ WhatIfAnalysis.error s' = WhatIfAnalysis.error s
    /\ WhatIfAnalysis.changedFields s' = changedFieldsList.
Proof.
  intros data cf s H. unfold WhatIfAnalysis.handleModifiedDataChange.
  rewrite H. simpl. rewrite H.
  unfold WhatIfAnalysis.same_baseline, WhatIfAnalysis.same_modified. simpl.
  rewrite H. repeat split.
Qed.

Lemma edit_without_baseline_witness :
  WhatIfAnalysis.originalData WhatIfAnalysis.initial = None
  /\ WhatIfAnalysis.handleModifiedDataChange Samples.edited ["total_clicks"]
       WhatIfAnalysis.initial
     = (WhatIfAnalysis.setChangedFields ["total_clicks"]
          WhatIfAnalysis.initial, [])
  /\ snd (WhatIfAnalysis.handleModifiedDataChange Samples.edited
            ["total_clicks"] WhatIfAnalysis.initial) = [].
Proof.
  split; [reflexivity|]. split; [reflexivity|].
  exact (proj1 (edit_without_baseline Samples.edited ["total_clicks"]
                  WhatIfAnalysis.initial eq_refl)).
Defined.

(** With a baseline the same handler raises the loading flag and schedules
    one debounced call for the edited record. *)
Lemma edit_with_baseline data changedFieldsList s base :
  WhatIfAnalysis.originalData s = Some base ->
  WhatIfAnalysis.handleModifiedDataChange data changedFieldsList s
  = (WhatIfAnalysis.setIsLoading true
       (WhatIfAnalysis.setChangedFields changedFieldsList s),
     [WhatIfAnalysis.DebouncedPredict data true]).
Proof.
  intros H. unfold WhatIfAnalysis.handleModifiedDataChange. now rewrite H.
Qed.

(** C7. Establishing a baseline ([debouncedPredict] with [isModified] false)
    issues the predict and the explain request for the same record together.
    If either call fails, the baseline record, prediction and explanation
    (and the modified results) stay as they were, whatever the other call
    returned, and the stored error is the message of the rejection that came
    first.  If both succeed, the record and both results are stored, so a
    page without a baseline now has one. *)
Theorem establish_baseline_atomic :
  forall (data : StudentInput) (first : Api.first_settled)
         (predict : Api.transport PredictionResponse.t)
         (explain : Api.transport ExplanationResponse.t)
         (s : WhatIfAnalysis.State),
    let s' := WhatIfAnalysis.debouncedPredict data false first predict
                explain s in
    WhatIfAnalysis.requests data
    = [ Api.POST "/predict" data; Api.POST "/explain" data ]
    /\ ((exists e, predict = Api.Failure e)
        \/ (exists e, explain = Api.Failure e) ->
        WhatIfAnalysis.same_baseline s s'
        /\ WhatIfAnalysis.same_modified s s'
        /\ WhatIfAnalysis.error s' <> None)
    /\ (forall e,
          predict = Api.Failure e ->
          first = Api.FirstOfPair \/ (exists x, explain = Api.Success x) ->
          WhatIfAnalysis.error s'
          = Some "Failed to predict student performance")
    /\ (forall e,
          explain = Api.Failure e ->
          first = Api.SecondOfPair \/ (exists p, predict = Api.Success p) ->
          WhatIfAnalysis.error s' = Some "Failed to generate explanation")
    /\ (forall p x,
          predict = Api.Success p ->
          explain = Api.Success x ->
          WhatIfAnalysis.originalData s' = Some data
          /\ WhatIfAnalysis.originalPrediction s' = Some p
          /\ WhatIfAnalysis.originalExplanation s' = Some x
          /\ WhatIfAnalysis.same_modified s s'
          /\ WhatIfAnalysis.error s' = WhatIfAnalysis.error s).
Proof.
  intros data first predict explain s s'. subst s'.
  split; [reflexivity|]. split; [|split; [|split]].
  - intros H.
    destruct (debouncedPredict_failed data false first predict explain s H)
      as (msg & _ & ->).
    repeat split. discriminate.
  - intros e -> H. now rewrite debouncedPredict_predict_first.
  - intros e -> H. now rewrite debouncedPredict_explain_first.
  - intros p x -> ->. repeat split.
Qed.

Lemma establish_baseline_atomic_witness :
  (* the predict call fails with a 500 while explain succeeds *)
  WhatIfAnalysis.debouncedPredict Samples.baseline false Api.SecondOfPair
    (Api.Failure Samples.serverFault)
    (Api.Success Samples.originalExplanation) WhatIfAnalysis.initial
  = WhatIfAnalysis.setError (Some "Failed to predict student performance")
      WhatIfAnalysis.initial
  /\ WhatIfAnalysis.same_baseline WhatIfAnalysis.initial
       (WhatIfAnalysis.debouncedPredict Samples.baseline false
          Api.SecondOfPair (Api.Failure Samples.serverFault)
          (Api.Success Samples.originalExplanation) WhatIfAnalysis.initial)
  (* both calls succeed *)
  /\ WhatIfAnalysis.originalData
       (WhatIfAnalysis.debouncedPredict Samples.baseline false
          Api.FirstOfPair (Api.Success Samples.somePrediction)
          (Api.Success Samples.originalExplanation) WhatIfAnalysis.initial)
     = Some Samples.baseline.
Proof.
  split; [reflexivity|]. split.
  - destruct (establish_baseline_atomic Samples.baseline Api.SecondOfPair
                (Api.Failure Samples.serverFault)
                (Api.Success Samples.originalExplanation)
                WhatIfAnalysis.initial) as (_ & Hfail & _).
    apply Hfail. left. exists Samples.serverFault. reflexivity.
  - destruct (establish_baseline_atomic Samples.baseline Api.FirstOfPair
                (Api.Success Samples.somePrediction)
                (Api.Success Samples.originalExplanation)
                WhatIfAnalysis.initial) as (_ & _ & _ & _ & Hok).
    apply (Hok Samples.somePrediction Samples.originalExplanation
             eq_refl eq_refl).
Defined.

(** C8. When a what-if re-evaluation ([debouncedPredict] with [isModified]
    true) fails, the page stores an error message and the modified prediction
    and explanation stored earlier stay in place; the baseline and the
    changed-field list are untouched as well. *)
Theorem what_if_failure_keeps_results :
  forall (data : StudentInput) (first : Api.first_settled)
         (predict : Api.transport PredictionResponse.t)
         (explain : Api.transport ExplanationResponse.t)
         (s : WhatIfAnalysis.State),
    (exists e, predict = Api.Failure e)
    \/ (exists e, explain = Api.Failure e) ->
    let s' := WhatIfAnalysis.debouncedPredict data true first predict
                explain s in
    (exists msg,
        WhatIfAnalysis.error s' = Some msg
        /\ (msg = "Failed to predict student performance"
            \/ msg = "Failed to generate explanation"))
    /\ WhatIfAnalysis.modifiedPrediction s'
       = WhatIfAnalysis.modifiedPrediction s
    /\ WhatIfAnalysis.modifiedExplanation s'
       = WhatIfAnalysis.modifiedExplanation s
    /\ WhatIfAnalysis.same_baseline s s'
    /\ WhatIfAnalysis.changedFields s' = WhatIfAnalysis.changedFields s.
Proof.
  intros data first predict explain s H s'. subst s'.
  destruct (debouncedPredict_failed data true first predict explain s H)
    as (msg & Hmsg & ->).
  split; [exists msg; split; [reflexivity|assumption]|].
  repeat split.
Qed.

Lemma what_if_failure_keeps_results_witness :
  WhatIfAnalysis.modifiedPrediction
    (WhatIfAnalysis.debouncedPredict Samples.edited true Api.FirstOfPair
       (Api.Success Samples.somePrediction)
       (Api.Failure Samples.serverFault) Samples.withResults)
  = Some Samples.somePrediction
  /\ WhatIfAnalysis.error
       (WhatIfAnalysis.debouncedPredict Samples.edited true Api.FirstOfPair
          (Api.Success Samples.somePrediction)
          (Api.Failure Samples.serverFault) Samples.withResults)
     = Some "Failed to generate explanation".
Proof.
  split; [|reflexivity].
  apply (what_if_failure_keeps_results Samples.edited Api.FirstOfPair
           (Api.Success Samples.somePrediction)
           (Api.Failure Samples.serverFault) Samples.withResults).
  right. exists Samples.serverFault. reflexivity.
Defined.

(** On success the pair of results replaces the modified results. *)
Lemma what_if_success data first p x s :
  WhatIfAnalysis.debouncedPredict data true first (Api.Success p)
    (Api.Success x) s
  = WhatIfAnalysis.setIsLoading false
      (WhatIfAnalysis.setModifiedExplanation (Some x)
         (WhatIfAnalysis.setModifiedPrediction (Some p) s)).
Proof. reflexivity. Qed.

(** * Further properties of the components *)

(** ** Changed-field tracking and the form's markers *)

Section FormFacts.

Import WhatIfInputForm.

Lemma get_setValue_other (o : StudentInput) k k' v :
  k' <> k -> JS.get (setValue o k v) k' = JS.get o k'.
Proof.
  intros N. unfold JS.get. induction o as [|[k0 v0] o IH]; simpl.
  - destruct (String.eqb_spec k k'); [congruence|reflexivity].
  - destruct (String.eqb_spec k0 k) as [->|N0]; simpl.
    + destruct (String.eqb_spec k k'); [congruence|reflexivity].
    + destruct (String.eqb_spec k0 k'); [reflexivity|exact IH].
Qed.

Lemma keys_setValue_In (o : StudentInput) k v :
  In k (JS.keys o) -> JS.keys (setValue o k v) = JS.keys o.
Proof.
  unfold JS.keys. induction o as [|[k0 v0] o IH]; simpl; [tauto|].
  intros H. destruct (String.eqb_spec k0 k) as [->|N0]; simpl.
  - reflexivity.
  - f_equal. apply IH. destruct H; [contradiction|assumption].
Qed.

Lemma keys_setValue_not_In (o : StudentInput) k v :
  ~ In k (JS.keys o) -> JS.keys (setValue o k v) = JS.keys o ++ [k].
Proof.
  unfold JS.keys. induction o as [|[k0 v0] o IH]; simpl; [reflexivity|].
  intros H. destruct (String.eqb_spec k0 k) as [->|N0]; simpl.
  - exfalso. apply H. now left.
  - f_equal. apply IH. tauto.
Qed.

Lemma filter_none {A} (p : A -> bool) (l : list A) :
  (forall x, In x l -> p x = false) -> filter p l = [].
Proof.
  induction l as [|x l IH]; simpl; intros H; [reflexivity|].
  rewrite (H x (or_introl eq_refl)). apply IH. intros y Hy. apply H. now right.
Qed.

Lemma filter_only (p : string -> bool) (l : list string) (k : string) :
  NoDup l -> In k l -> p k = true ->
  (forall x, In x l -> x <> k -> p x = false) ->
  filter p l = [k].
Proof.
  induction l as [|x l IH]; simpl; intros ND I Pk H; [destruct I|].
  inversion ND as [|? ? Nx ND']; subst.
  destruct (string_dec x k) as [->|N].
  - rewrite Pk. f_equal. apply filter_none. intros y Hy. apply H.
    + now right.
    + intros ->. contradiction.
  - rewrite (H x (or_introl eq_refl) N).
    apply IH;
      [assumption
      |destruct I; [contradiction|assumption]
      |assumption
      |intros y Hy; apply H; now right].
Qed.

Lemma filter_and_not (p : string -> bool) (k : string) (l : list string) :
  filter (fun f => negb (String.eqb f k)) (filter p l)
  = filter (fun f => negb (String.eqb f k) && p f) l.
Proof.
  induction l as [|x l IH]; simpl; [reflexivity|].
  destruct (p x); simpl.
  - rewrite andb_true_r. destruct (negb (String.eqb x k)); now rewrite IH.
  - rewrite andb_false_r. exact IH.
Qed.

(** For two records with the declared fields, membership in the tracked list
    is strict inequality of the field. *)
Lemma tracked_iff (formData originalData : StudentInput) k :
  StudentRecord formData -> StudentRecord originalData ->
  JS.includes (trackChangedFields formData originalData) k
  = negb (JS.strict_eq (JS.get formData k) (JS.get originalData k)).
Proof.
  intros HA HB.
  destruct (JS.strict_eq (JS.get formData k) (JS.get originalData k)) eqn:E;
    simpl.
  - apply includes_not_In. rewrite trackChangedFields_In. intros [_ H].
    congruence.
  - apply includes_In. rewrite trackChangedFields_In. split; [|assumption].
    destruct (in_dec string_dec k (JS.keys formData)) as [I|N]; [assumption|].
    exfalso.
    assert (NB : ~ In k (JS.keys originalData)).
    { intros I. apply N. apply (Permutation_in k (Permutation_sym HA)).
      apply (Permutation_in k HB I). }
    rewrite (get_absent _ _ N), (get_absent _ _ NB) in E. discriminate.
Qed.

Lemma gt_iff (a b : Q) : JS.gt a b = true <-> (b < a)%Q.
Proof.
  unfold JS.gt. rewrite negb_true_iff. split; intros H.
  - apply Qnot_le_lt. intros L. apply Qle_bool_iff in L. congruence.
  - destruct (Qle_bool a b) eqn:E; [|reflexivity].
    apply Qle_bool_iff in E. exfalso. apply (Qlt_not_le _ _ H E).
Qed.

Lemma gt_false_iff (a b : Q) : JS.gt a b = false <-> (a <= b)%Q.
Proof.
  unfold JS.gt. rewrite negb_false_iff. apply Qle_bool_iff.
Qed.

End FormFacts.

(** A record compared with itself reports nothing, and changing one field of
    a record to a value that is not strictly equal to the old one reports
    that field alone. *)
Theorem single_edit_tracked :
  forall (originalData : StudentInput) (k : string) (v : JS.value),
    NoDup (JS.keys originalData) ->
    In k (JS.keys originalData) ->
    JS.strict_eq v (JS.get originalData k) = false ->
    WhatIfInputForm.trackChangedFields originalData originalData = []
    /\ WhatIfInputForm.trackChangedFields
         (WhatIfInputForm.setValue originalData k v) originalData
       = [k].
Proof.
  intros B k v ND I Hv. split.
  - rewrite trackChangedFields_filter. apply filter_none. intros x _.
    unfold JS.strict_neq. now rewrite strict_eq_refl.
  - rewrite trackChangedFields_filter, (keys_setValue_In _ _ _ I).
    apply filter_only; auto.
    + unfold JS.strict_neq. now rewrite get_setValue_same, Hv.
    + intros x _ N. unfold JS.strict_neq.
      now rewrite (get_setValue_other _ _ _ _ N), strict_eq_refl.
Qed.

Lemma single_edit_tracked_witness :
  WhatIfInputForm.trackChangedFields Samples.baseline Samples.baseline = []
  /\ WhatIfInputForm.trackChangedFields
       (WhatIfInputForm.setValue Samples.baseline "gender" (JS.Str "F"))
       Samples.baseline
     = ["gender"].
Proof.
  apply (single_edit_tracked Samples.baseline "gender" (JS.Str "F")).
  - apply StudentInput_fields_NoDup.
  - simpl. tauto.
  - reflexivity.
Defined.

(** Resetting a field removes that field, and nothing else, from the list
    the tracking computes. *)
Theorem resetField_removes_field :
  forall (formData originalData : StudentInput) (k : string),
    WhatIfInputForm.trackChangedFields
      (WhatIfInputForm.resetField formData originalData k) originalData
    = filter (fun f => negb (String.eqb f k))
        (WhatIfInputForm.trackChangedFields formData originalData).
Proof.
  intros A B k. unfold WhatIfInputForm.resetField.
  rewrite !trackChangedFields_filter, filter_and_not.
  set (A' := WhatIfInputForm.setValue A k (JS.get B k)).
  assert (E : forall x,
             JS.strict_neq (JS.get A' x) (JS.get B x)
             = negb (String.eqb x k)
               && JS.strict_neq (JS.get A x) (JS.get B x)).
  { intros x. subst A'. destruct (String.eqb_spec x k) as [->|N]; simpl.
    - unfold JS.strict_neq. now rewrite get_setValue_same, strict_eq_refl.
    - now rewrite (get_setValue_other _ _ _ _ N). }
  destruct (in_dec string_dec k (JS.keys A)) as [I|N].
  - subst A'. rewrite (keys_setValue_In _ _ _ I).
    apply filter_ext. intros x. apply E.
  - subst A'. rewrite (keys_setValue_not_In _ _ _ N), filter_app. simpl.
    rewrite (E k), String.eqb_refl. simpl. rewrite app_nil_r.
    apply filter_ext. intros x. apply E.
Qed.

Ltac split_cases :=
  repeat match goal with
         | |- _ /\ _ => split
         | |- _ <-> _ => split
         | |- _ -> _ => intro
         | |- ~ _ => intro
         | H : _ /\ _ |- _ => destruct H
         | H : exists _, _ |- _ => destruct H
         end;
  solve [discriminate | reflexivity].

(** When the changed-field list handed to the form is the one its tracking
    computes from the current values, a field shows no marker exactly when
    its value is strictly equal to the baseline's, an upward or downward arrow
    exactly when both values are numbers and the current one is greater or
    smaller, and the neutral marker exactly when the values differ and are
    not both numbers. *)
Theorem field_marker_in_sync :
  forall (formData originalData : StudentInput) (k : string),
    StudentRecord formData ->
    StudentRecord originalData ->
    let icon :=
      WhatIfInputForm.getFieldChangeIcon
        (WhatIfInputForm.trackChangedFields formData originalData)
        formData originalData k in
    (icon = None
     <-> JS.strict_eq (JS.get formData k) (JS.get originalData k) = true)
    /\ (icon = Some WhatIfInputForm.TrendingUp
        <-> exists c o, JS.get formData k = JS.Num c
                        /\ JS.get originalData k = JS.Num o /\ (o < c)%Q)
    /\ (icon = Some WhatIfInputForm.TrendingDown
        <-> exists c o, JS.get formData k = JS.Num c
                        /\ JS.get originalData k = JS.Num o /\ (c < o)%Q)
    /\ (icon = Some WhatIfInputForm.Remove
        <-> JS.strict_eq (JS.get formData k) (JS.get originalData k) = false
            /\ ~ (exists c o, JS.get formData k = JS.Num c
                              /\ JS.get originalData k = JS.Num o)).
Proof.
  intros A B k HA HB icon. subst icon.
  unfold WhatIfInputForm.getFieldChangeIcon.
  rewrite (tracked_iff A B k HA HB), negb_involutive.
  destruct (JS.get A k) as [| |a|c|a] eqn:EA;
    destruct (JS.get B k) as [| |b|o|b] eqn:EB; simpl.
  all: try (destruct (Bool.eqb a b)); try (destruct (String.eqb a b)).
  all: simpl; try solve [split_cases].
  (* two numbers *)
  destruct (Qeq_bool c o) eqn:E; simpl.
  - apply Qeq_bool_iff in E.
    assert (Irr : forall x y : Q, c == o -> JS.Num c = JS.Num x ->
                    JS.Num o = JS.Num y -> ~ (x < y)%Q /\ ~ (y < x)%Q).
    { intros x y _ Hx Hy. inversion Hx; inversion Hy; subst.
      rewrite E. split; apply Qlt_irrefl. }
    split; [split; reflexivity|].
    split; [split; [discriminate|]|split; [split; [discriminate|]|]].
    + intros (x & y & Hx & Hy & L). exfalso.
      now apply (proj2 (Irr x y E Hx Hy)).
    + intros (x & y & Hx & Hy & L). exfalso.
      now apply (proj1 (Irr x y E Hx Hy)).
    + split; [discriminate|]. intros [H _]. discriminate.
  - assert (N : ~ (c == o)%Q).
    { intros H. apply Qeq_bool_iff in H. congruence. }
    destruct (JS.gt c o) eqn:G1.
    + apply gt_iff in G1.
      split; [split; discriminate|].
      split; [split; [intros _; exists c, o; auto|reflexivity]|].
      split.
      * split; [discriminate|].
        intros (x & y & Hx & Hy & L). inversion Hx; inversion Hy; subst.
        exfalso. apply (Qlt_irrefl y). now apply Qlt_trans with x.
      * split; [discriminate|]. intros [_ H]. exfalso. apply H. eauto.
    + apply gt_false_iff in G1.
      assert (L : (c < o)%Q).
      { destruct (Qle_lt_or_eq _ _ G1); [assumption|contradiction]. }
      assert (G2 : JS.gt o c = true) by now apply gt_iff.
      rewrite G2.
      split; [split; discriminate|].
      split.
      * split; [discriminate|].
        intros (x & y & Hx & Hy & L'). inversion Hx; inversion Hy; subst.
        exfalso. apply (Qlt_irrefl y). now apply Qlt_trans with x.
      * split; [split; [intros _; exists c, o; auto|reflexivity]|].
        split; [discriminate|]. intros [_ H]. exfalso. apply H. eauto.
Qed.

Lemma field_marker_in_sync_witness :
  WhatIfInputForm.getFieldChangeIcon
    (WhatIfInputForm.trackChangedFields Samples.edited Samples.baseline)
    Samples.edited Samples.baseline "total_clicks"
  = Some WhatIfInputForm.TrendingUp.
Proof.
  assert (HA : StudentRecord Samples.edited) by apply Permutation_refl.
  assert (HB : StudentRecord Samples.baseline) by apply Permutation_refl.
  destruct (field_marker_in_sync Samples.edited Samples.baseline
              "total_clicks" HA HB) as (_ & Hup & _).
  apply Hup. exists 200%Q, 150%Q. repeat split.
Defined.

(** Toggling a section flips that section and leaves the other three alone;
    toggling it twice restores the state, and toggles commute. *)
Theorem toggleSection_flips :
  forall (a b : WhatIfInputForm.SectionName)
         (prev : WhatIfInputForm.ExpandedSections),
    WhatIfInputForm.expanded (WhatIfInputForm.toggleSection a prev) a
    = negb (WhatIfInputForm.expanded prev a)
    /\ (a <> b ->
        WhatIfInputForm.expanded (WhatIfInputForm.toggleSection a prev) b
        = WhatIfInputForm.expanded prev b)
    /\ WhatIfInputForm.toggleSection a (WhatIfInputForm.toggleSection a prev)
       = prev
    /\ WhatIfInputForm.toggleSection a (WhatIfInputForm.toggleSection b prev)
       = WhatIfInputForm.toggleSection b
           (WhatIfInputForm.toggleSection a prev).
Proof.
  intros a b [p1 p2 p3 p4].
  destruct a, b, p1, p2, p3, p4; simpl;
    repeat split; intros; try reflexivity; congruence.
Qed.

Lemma toggleSection_flips_witness :
  WhatIfInputForm.expanded
    (WhatIfInputForm.toggleSection WhatIfInputForm.Engagement
       WhatIfInputForm.expandedInitially) WhatIfInputForm.Basic
  = true.
Proof.
  destruct (toggleSection_flips WhatIfInputForm.Engagement
              WhatIfInputForm.Basic WhatIfInputForm.expandedInitially)
    as (_ & Hother & _).
  rewrite Hother; [reflexivity|discriminate].
Defined.

(** A section's border is drawn exactly when the changed-field list holds one
    of the section's fields; the four lists are pairwise disjoint and together
    they are the fields the form has a control for, so a changed field that
    has a control marks exactly one section. *)
Theorem section_highlight :
  (forall changedFields section,
      WhatIfInputForm.sectionHighlighted changedFields section = true
      <-> exists f, In f changedFields
                    /\ In f (WhatIfInputForm.sectionFields section))
  /\ (forall f s1 s2,
        In f (WhatIfInputForm.sectionFields s1) ->
        In f (WhatIfInputForm.sectionFields s2) -> s1 = s2)
  /\ (forall f,
        In f WhatIfInputForm.controlledFields
        <-> exists section, In f (WhatIfInputForm.sectionFields section))
  /\ (forall f, In f WhatIfInputForm.controlledFields ->
                 In f StudentInput_fields).
Proof.
  split; [|split; [|split]].
  - intros cf section. unfold WhatIfInputForm.sectionHighlighted.
    rewrite existsb_exists. split; intros (f & H1 & H2); exists f;
      split; try assumption; now apply includes_In.
  - intros f s1 s2 H1 H2.
    destruct s1, s2; try reflexivity; simpl in H1, H2; exfalso;
      repeat (destruct H1 as [<-|H1];
              [repeat (destruct H2 as [H2|H2]; [discriminate|]);
               destruct H2|]); destruct H1.
  - intros f. split.
    + intros H. simpl in H.
      repeat (destruct H as [<-|H];
              [first [ exists WhatIfInputForm.Basic; simpl; tauto
                     | exists WhatIfInputForm.Academic; simpl; tauto
                     | exists WhatIfInputForm.Engagement; simpl; tauto
                     | exists WhatIfInputForm.Assessment; simpl; tauto ]|]).
      destruct H.
    + intros ([] & H); simpl in H;
        repeat (destruct H as [<-|H]; [simpl; tauto|]); destruct H.
  - intros f H. simpl in H.
    repeat (destruct H as [<-|H]; [simpl; tauto|]). destruct H.
Qed.

Lemma section_highlight_witness :
  WhatIfInputForm.sectionHighlighted ["total_clicks"]
    WhatIfInputForm.Engagement = true.
Proof.
  apply (proj1 section_highlight). exists "total_clicks".
  split; simpl; tauto.
Defined.

(** ** The what-if page as a whole *)

Section PageRuns.

Import WhatIfAnalysis.

Lemma run_app (es1 es2 : list Event) (p : Page) :
  run (es1 ++ es2) p = run es2 (run es1 p).
Proof. unfold run. apply fold_left_app. Qed.

(** An invariant of [step] is an invariant of [run]. *)
Lemma run_invariant (Inv : Page -> Prop) :
  (forall e p, Inv p -> Inv (step e p)) ->
  forall events p, Inv p -> Inv (run events p).
Proof.
  intros Hstep events. unfold run.
  induction events as [|e events IH]; intros p Hp; simpl.
  - assumption.
  - apply IH. now apply Hstep.
Qed.

(** The pages [start] can reach. *)
Lemma step_inert (e : Event) (p : Page) :
  (pending p = [] /\ issued p = []
   /\ exists changed, state p = setChangedFields changed initial) ->
  pending (step e p) = [] /\ issued (step e p) = []
  /\ exists changed, state (step e p) = setChangedFields changed initial.
Proof.
  intros (Hp & Hi & changed & Hs). destruct p as [s pend iss].
  simpl in Hp, Hi, Hs. subst.
  destruct e; simpl; repeat split; eexists; reflexivity.
Qed.

Lemma failure_message_truthy (msg : string) :
  msg = "Failed to predict student performance"
  \/ msg = "Failed to generate explanation" ->
  JS.truthy_string (Some msg) = true.
Proof. intros [->| ->]; reflexivity. Qed.

Lemma debouncedPredict_cases data isModified first predict explain s :
  (exists msg,
      (msg = "Failed to predict student performance"
       \/ msg = "Failed to generate explanation")
      /\ debouncedPredict data isModified first predict explain s
         = setIsLoading false (setError (Some msg) s))
  \/ (exists p x,
        predict = Api.Success p /\ explain = Api.Success x).
Proof.
  destruct predict as [p|e].
  - destruct explain as [x|e].
    + right. eauto.
    + left. apply debouncedPredict_failed. right. eauto.
  - left. apply debouncedPredict_failed. left. eauto.
Qed.

Lemma debouncedPredict_paired data isModified first predict explain s :
  paired s ->
  paired (debouncedPredict data isModified first predict explain s).
Proof.
  unfold paired. intros (H1 & H2 & H3).
  destruct (debouncedPredict_cases data isModified first predict explain s)
    as [(msg & _ & ->)|(q & x & -> & ->)].
  - simpl. auto.
  - unfold debouncedPredict. simpl.
    destruct isModified; simpl; (split; [|split]); try assumption;
      split; intros E; discriminate.
Qed.

Lemma debouncedPredict_keeps_error data isModified first predict explain s :
  rendersError s = true ->
  rendersError (debouncedPredict data isModified first predict explain s)
  = true.
Proof.
  unfold rendersError. intros H.
  destruct (debouncedPredict_cases data isModified first predict explain s)
    as [(msg & Hmsg & ->)|(q & x & -> & ->)].
  - simpl. now apply failure_message_truthy.
  - unfold debouncedPredict. simpl. destruct isModified; simpl; assumption.
Qed.

Lemma step_paired (e : Event) (p : Page) :
  paired (state p) -> paired (state (step e p)).
Proof.
  intros H. destruct p as [s pend iss]. simpl in H.
  destruct e as [data cf|first predict explain| | |]; simpl.
  - unfold handleModifiedDataChange.
    destruct (JS.truthy (originalData s)); exact H.
  - destruct pend as [|[data isModified] rest]; simpl; [exact H|].
    now apply debouncedPredict_paired.
  - exact H.
  - repeat split; reflexivity.
  - exact H.
Qed.

Lemma step_keeps_error (e : Event) (p : Page) :
  keepsError e = true ->
  rendersError (state p) = true ->
  rendersError (state (step e p)) = true.
Proof.
  intros He H. destruct p as [s pend iss]. simpl in H.
  destruct e as [data cf|first predict explain| | |]; simpl;
    try discriminate.
  - unfold handleModifiedDataChange.
    destruct (JS.truthy (originalData s)); exact H.
  - destruct pend as [|[data isModified] rest]; simpl; [exact H|].
    now apply debouncedPredict_keeps_error.
  - exact H.
Qed.

End PageRuns.

(** From its initial state the what-if page never gets a baseline: whatever
    the form reports, whichever calls settle or are replaced and whatever is
    clicked, no call is scheduled, no request is issued, and the state stays
    the initial one up to the changed-field list, so neither the form nor the
    comparison is rendered.  (Only [debouncedPredict] with [isModified] false
    stores a baseline, and the page only ever schedules it with true.) *)
Theorem page_never_gets_baseline :
  forall events : list WhatIfAnalysis.Event,
    let p := WhatIfAnalysis.run events WhatIfAnalysis.start in
    WhatIfAnalysis.pending p = []
    /\ WhatIfAnalysis.issued p = []
    /\ (exists changed,
          WhatIfAnalysis.state p
          = WhatIfAnalysis.setChangedFields changed WhatIfAnalysis.initial)
    /\ WhatIfAnalysis.originalData (WhatIfAnalysis.state p) = None
    /\ WhatIfAnalysis.rendersForm (WhatIfAnalysis.state p) = false
    /\ WhatIfAnalysis.rendersComparison (WhatIfAnalysis.state p) = false.
Proof.
  intros events p.
  assert (H : WhatIfAnalysis.pending p = [] /\ WhatIfAnalysis.issued p = []
              /\ exists changed,
                  WhatIfAnalysis.state p
                  = WhatIfAnalysis.setChangedFields changed
                      WhatIfAnalysis.initial).
  { subst p.
    apply (run_invariant
             (fun p => WhatIfAnalysis.pending p = []
                       /\ WhatIfAnalysis.issued p = []
                       /\ exists changed,
                           WhatIfAnalysis.state p
                           = WhatIfAnalysis.setChangedFields changed
                               WhatIfAnalysis.initial)).
    - intros e q. apply step_inert.
    - repeat split. now exists []. }
  destruct H as (Hp & Hi & changed & Hs).
  repeat split; try assumption.
  - now exists changed.
  - now rewrite Hs.
  - unfold WhatIfAnalysis.rendersForm. now rewrite Hs.
  - unfold WhatIfAnalysis.rendersComparison. now rewrite Hs.
Qed.

(** The handlers store results in groups: if the baseline record and its two
    results are present together or not at all, and likewise the two modified
    results, this stays so after any events; then, whenever the page renders
    the comparison, both explanations it hands over are present. *)
Theorem results_stay_paired :
  forall (events : list WhatIfAnalysis.Event) (p : WhatIfAnalysis.Page),
    WhatIfAnalysis.paired (WhatIfAnalysis.state p) ->
    let s := WhatIfAnalysis.state (WhatIfAnalysis.run events p) in
    WhatIfAnalysis.paired s
    /\ (WhatIfAnalysis.rendersComparison s = true ->
        WhatIfAnalysis.originalExplanation s <> None
        /\ WhatIfAnalysis.modifiedExplanation s <> None).
Proof.
  intros events p Hp s.
  assert (H : WhatIfAnalysis.paired s).
  { subst s.
    apply (run_invariant
             (fun q => WhatIfAnalysis.paired (WhatIfAnalysis.state q)));
      [intros e q; apply step_paired|assumption]. }
  split; [assumption|].
  destruct H as (H1 & H2 & H3). unfold WhatIfAnalysis.rendersComparison.
  intros R. apply andb_prop in R. destruct R as [R Rm].
  apply andb_prop in R. destruct R as [Rd Ro].
  split.
  - intros E. apply H2 in E. rewrite E in Rd. discriminate.
  - intros E. apply H3 in E. rewrite E in Rm. discriminate.
Qed.

Lemma results_stay_paired_witness :
  WhatIfAnalysis.paired
    (WhatIfAnalysis.state
       (WhatIfAnalysis.run
          [ WhatIfAnalysis.FormChange Samples.edited ["total_clicks"];
            WhatIfAnalysis.CallSettles Api.FirstOfPair
              (Api.Success Samples.somePrediction)
              (Api.Failure Samples.serverFault) ]
          {| WhatIfAnalysis.state := Samples.withResults;
             WhatIfAnalysis.pending := [];
             WhatIfAnalysis.issued := [] |})).
Proof.
  apply (results_stay_paired
           [ WhatIfAnalysis.FormChange Samples.edited ["total_clicks"];
             WhatIfAnalysis.CallSettles Api.FirstOfPair
               (Api.Success Samples.somePrediction)
               (Api.Failure Samples.serverFault) ]
           {| WhatIfAnalysis.state := Samples.withResults;
              WhatIfAnalysis.pending := [];
              WhatIfAnalysis.issued := [] |}).
  repeat split; intros H; discriminate.
Defined.

(** Once an error is displayed it stays displayed until the reset button or
    the alert's close button is clicked: edits, replaced calls and calls that
    settle, successfully or not, never clear it. *)
Theorem error_stays_displayed :
  forall (events : list WhatIfAnalysis.Event) (p : WhatIfAnalysis.Page),
    forallb WhatIfAnalysis.keepsError events = true ->
    WhatIfAnalysis.rendersError (WhatIfAnalysis.state p) = true ->
    WhatIfAnalysis.rendersError
      (WhatIfAnalysis.state (WhatIfAnalysis.run events p)) = true.
Proof.
  intros events. unfold WhatIfAnalysis.run.
  induction events as [|e events IH]; intros p Hk Hp; simpl.
  - assumption.
  - simpl in Hk. apply andb_prop in Hk. destruct Hk as [He Hk].
    apply IH; [assumption|]. now apply step_keeps_error.
Qed.

Lemma error_stays_displayed_witness :
  WhatIfAnalysis.rendersError
    (WhatIfAnalysis.state
       (WhatIfAnalysis.run
          [ WhatIfAnalysis.FormChange Samples.edited ["total_clicks"];
            WhatIfAnalysis.CallSettles Api.FirstOfPair
              (Api.Success Samples.somePrediction)
              (Api.Success Samples.modifiedExplanation) ]
          {| WhatIfAnalysis.state :=
               WhatIfAnalysis.setError (Some "Failed to generate explanation")
                 Samples.withResults;
             WhatIfAnalysis.pending := [];
             WhatIfAnalysis.issued := [] |}))
  = true.
Proof.
  apply (error_stays_displayed
           [ WhatIfAnalysis.FormChange Samples.edited ["total_clicks"];
             WhatIfAnalysis.CallSettles Api.FirstOfPair
               (Api.Success Samples.somePrediction)
               (Api.Success Samples.modifiedExplanation) ]);
    reflexivity.
Defined.


(** ** The capture form *)

Section CaptureForm.

Import StudentInputForm.

Lemma render_total explanation loading error :
  exists view, ExplanationChart.render explanation loading error
               = JS.Normal view.
Proof.
  unfold ExplanationChart.render.
  destruct loading; [eauto|].
  destruct (JS.truthy_string error); [eauto|].
  destruct (JS.truthy explanation); simpl; [|eauto].
  rewrite prepareSHAPData_eq, prepareLIMEData_eq,
    prepareFeatureImportanceData_eq. simpl. eauto.
Qed.


Lemma step_card_not_loading (e : Event) (s : State) :
  (rendersPredictionCard s = true -> isLoading s = false) ->
  rendersPredictionCard (step e s) = true -> isLoading (step e s) = false.
Proof.
  unfold rendersPredictionCard. intros H.
  destruct e as [|t| |t|]; simpl.
  - discriminate.
  - unfold onSubmit_settle.
    destruct (Api.predictStudentPerformance t); reflexivity.
  - destruct (JS.truthy (prediction s)) eqn:E; simpl; intros G; apply H;
      try reflexivity; congruence.
  - unfold handleExplain_settle.
    destruct (Api.explainPrediction t); simpl; exact H.
  - discriminate.
Qed.

End CaptureForm.




(** In every state the capture form reaches from its initial one, in any
    interleaving of the steps of submissions, explanations and resets (the
    state updates of one step taken together), a stored prediction comes with
    the loading flag down: the prediction card, which receives that flag, is
    not rendered in its loading state. *)
Theorem prediction_card_never_loading :
  forall events : list StudentInputForm.Event,
    let s := StudentInputForm.run events StudentInputForm.initial in
    StudentInputForm.rendersPredictionCard s = true ->
    StudentInputForm.isLoading s = false.
Proof.
  intros events. unfold StudentInputForm.run.
  assert (G : forall s0,
             (StudentInputForm.rendersPredictionCard s0 = true ->
              StudentInputForm.isLoading s0 = false) ->
             let s := fold_left (fun s e => StudentInputForm.step e s)
                        events s0 in
             StudentInputForm.rendersPredictionCard s = true ->
             StudentInputForm.isLoading s = false).
  { induction events as [|e events IH]; intros s0 H0; simpl.
    - exact H0.
    - apply IH. now apply step_card_not_loading. }
  apply G. intros _. reflexivity.
Qed.

Lemma prediction_card_never_loading_witness :
  StudentInputForm.isLoading
    (StudentInputForm.run
       [ StudentInputForm.SubmitBegins;
         StudentInputForm.SubmitSettles (Api.Success Samples.somePrediction);
         StudentInputForm.ExplainBegins ]
       StudentInputForm.initial)
  = false.
Proof.
  apply (prediction_card_never_loading
           [ StudentInputForm.SubmitBegins;
             StudentInputForm.SubmitSettles
               (Api.Success Samples.somePrediction);
             StudentInputForm.ExplainBegins ]).
  reflexivity.
Defined.

(** ** Rankings: what is kept and what is dropped *)

Section TopRows.

Context {A : Type} (key : A -> Q).

Lemma descending_split (l : list A) (n : nat) (a b : A) :
  descending_by key l ->
  In a (firstn n l) -> In b (skipn n l) -> (key b <= key a)%Q.
Proof.
  unfold descending_by. intros H. revert n.
  induction H as [|x l Hs IH Hx]; intros n Ha Hb.
  - destruct n; destruct Ha.
  - destruct n as [|n]; simpl in Ha, Hb; [destruct Ha|].
    destruct Ha as [<-|Ha].
    + rewrite Forall_forall in Hx. apply Hx.
      rewrite <- (firstn_skipn n l). apply in_or_app. now right.
    + now apply (IH n).
Qed.

(** The first [n] rows of the sorted array and the rest. *)
Lemma sort_slice (n : nat) (l : list A) :
  let sorted := JS.sort (fun a b => (key b - key a)%Q) l in
  Permutation (JS.slice0 n sorted ++ skipn n sorted) l
  /\ List.length (JS.slice0 n sorted) = Nat.min n (List.length l)
  /\ (forall a b, In a (JS.slice0 n sorted) -> In b (skipn n sorted) ->
                   (key b <= key a)%Q).
Proof.
  intros sorted. unfold JS.slice0. split; [|split].
  - rewrite firstn_skipn. apply sort_perm.
  - rewrite length_firstn. f_equal. apply Permutation_length, sort_perm.
  - intros a b. apply descending_split. apply sort_descending.
Qed.

End TopRows.

(** The comparison keeps the rows with the largest absolute changes: with
    both SHAP mappings present its result has [min 10 n] rows, where [n] is
    the number of distinct feature names of the two mappings, and every row
    it drops has an absolute change at most that of every row it keeps. *)
Theorem comparison_keeps_largest :
  forall (oe me : ExplanationResponse.t)
         (originalShap modifiedShap : JS.object Q)
         (changedFields : list string),
    ExplanationResponse.shap_values oe = Some originalShap ->
    ExplanationResponse.shap_values me = Some modifiedShap ->
    let allFeatures :=
      JS.new_Set (JS.keys originalShap ++ JS.keys modifiedShap) in
    exists kept dropped,
      ComparisonView.getComparisonData (Some oe) (Some me) changedFields
      = JS.Normal kept
      /\ Permutation (kept ++ dropped)
           (map (ComparisonView.comparisonRow originalShap modifiedShap
                   changedFields) allFeatures)
      /\ List.length kept = Nat.min 10 (List.length allFeatures)
      /\ (forall a b, In a kept -> In b dropped ->
                      (ComparisonView.absChange b
                       <= ComparisonView.absChange a)%Q).
Proof.
  intros oe me os ms cf Ho Hm allFeatures.
  destruct (sort_slice ComparisonView.absChange 10
              (map (ComparisonView.comparisonRow os ms cf) allFeatures))
    as (Hperm & Hlen & Htop).
  exists (JS.slice0 10
            (JS.sort ComparisonView.byAbsChange
               (map (ComparisonView.comparisonRow os ms cf) allFeatures))).
  exists (skipn 10
            (JS.sort ComparisonView.byAbsChange
               (map (ComparisonView.comparisonRow os ms cf) allFeatures))).
  split; [apply getComparisonData_present; assumption|].
  split; [exact Hperm|]. split; [|exact Htop].
  rewrite <- (length_map (ComparisonView.comparisonRow os ms cf)).
  exact Hlen.
Qed.

Lemma comparison_keeps_largest_witness :
  exists kept,
    ComparisonView.getComparisonData (Some Samples.originalExplanation)
      (Some Samples.modifiedExplanation) ["total_clicks"]
    = JS.Normal kept
    /\ List.length kept = 2%nat.
Proof.
  destruct (comparison_keeps_largest Samples.originalExplanation
              Samples.modifiedExplanation Samples.originalShap
              Samples.modifiedShap ["total_clicks"] eq_refl eq_refl)
    as (kept & dropped & Hout & _ & Hlen & _).
  exists kept. split; [exact Hout|exact Hlen].
Defined.

(** The SHAP and the LIME ranking keep the entries with the largest absolute
    values: each returns [min 10 n] rows for a mapping of [n] entries (none
    for a missing mapping), one row per kept entry, and every entry it drops
    has an absolute value at most that of every row it keeps. *)
Theorem rankings_keep_largest :
  forall explanation : option ExplanationResponse.t,
    let shap :=
      ExplanationChart.present_or_empty
        (JS.opt_member explanation ExplanationResponse.shap_values) in
    let lime :=
      ExplanationChart.present_or_empty
        (ExplanationChart.top_features_of explanation) in
    (exists kept dropped,
        ExplanationChart.prepareSHAPData explanation = JS.Normal kept
        /\ Permutation (kept ++ dropped) (map ExplanationChart.chartRow shap)
        /\ List.length kept = Nat.min 10 (List.length shap)
        /\ (forall a b, In a kept -> In b dropped ->
                        (ExplanationChart.absValue b
                         <= ExplanationChart.absValue a)%Q))
    /\ (exists kept dropped,
          ExplanationChart.prepareLIMEData explanation = JS.Normal kept
          /\ Permutation (kept ++ dropped)
               (map ExplanationChart.chartRow lime)
          /\ List.length kept = Nat.min 10 (List.length lime)
          /\ (forall a b, In a kept -> In b dropped ->
                          (ExplanationChart.absValue b
                           <= ExplanationChart.absValue a)%Q)).
Proof.
  intros explanation shap lime. split.
  - destruct (sort_slice ExplanationChart.absValue 10
                (map ExplanationChart.chartRow shap))
      as (Hperm & Hlen & Htop).
    exists (JS.slice0 10
              (JS.sort ExplanationChart.byAbsValue
                 (map ExplanationChart.chartRow shap))).
    exists (skipn 10
              (JS.sort ExplanationChart.byAbsValue
                 (map ExplanationChart.chartRow shap))).
    split; [apply prepareSHAPData_eq|].
    split; [exact Hperm|]. split; [|exact Htop].
    rewrite <- (length_map ExplanationChart.chartRow). exact Hlen.
  - destruct (sort_slice ExplanationChart.absValue 10
                (map ExplanationChart.chartRow lime))
      as (Hperm & Hlen & Htop).
    exists (JS.slice0 10
              (JS.sort ExplanationChart.byAbsValue
                 (map ExplanationChart.chartRow lime))).
    exists (skipn 10
              (JS.sort ExplanationChart.byAbsValue
                 (map ExplanationChart.chartRow lime))).
    split; [apply prepareLIMEData_eq|].
    split; [exact Hperm|]. split; [|exact Htop].
    rewrite <- (length_map ExplanationChart.chartRow). exact Hlen.
Qed.

(** None of the chart preparations throws, whatever reply they are given: a
    null explanation or one with missing parts yields empty rankings, and the
    chart component and the comparison always complete. *)
Theorem preparations_never_throw :
  forall (explanation other : option ExplanationResponse.t)
         (changedFields : list string) (loading : bool)
         (error : option string),
    (exists rows, ExplanationChart.prepareSHAPData explanation
                  = JS.Normal rows)
    /\ (exists rows, ExplanationChart.prepareLIMEData explanation
                     = JS.Normal rows)
    /\ (exists rows, ExplanationChart.prepareFeatureImportanceData explanation
                     = JS.Normal rows)
    /\ (exists view, ExplanationChart.render explanation loading error
                     = JS.Normal view)
    /\ (exists rows, ComparisonView.getComparisonData explanation other
                       changedFields = JS.Normal rows)
    /\ ExplanationChart.prepareSHAPData None = JS.Normal []
    /\ ExplanationChart.prepareLIMEData None = JS.Normal []
    /\ ExplanationChart.prepareFeatureImportanceData None = JS.Normal [].
Proof.
  intros explanation other cf loading error.
  split; [eexists; apply prepareSHAPData_eq|].
  split; [eexists; apply prepareLIMEData_eq|].
  split; [eexists; apply prepareFeatureImportanceData_eq|].
  split; [apply render_total|].
  split; [apply getComparisonData_total|].
  repeat split.
Qed.

(** ** Comparison rows: signs and colours *)

Section RowFacts.

Import ComparisonView.

Lemma ge_iff (a b : Q) : JS.ge a b = true <-> (b <= a)%Q.
Proof. unfold JS.ge. apply Qle_bool_iff. Qed.

Lemma ge_false_iff (a b : Q) : JS.ge a b = false <-> (a < b)%Q.
Proof.
  unfold JS.ge. split; intros H.
  - apply Qnot_le_lt. intros L. apply Qle_bool_iff in L. congruence.
  - destruct (Qle_bool b a) eqn:E; [|reflexivity].
    apply Qle_bool_iff in E. exfalso. apply (Qlt_not_le _ _ H E).
Qed.

Lemma getComparisonData_rows oe me os ms cf rows r :
  ExplanationResponse.shap_values oe = Some os ->
  ExplanationResponse.shap_values me = Some ms ->
  getComparisonData (Some oe) (Some me) cf = JS.Normal rows ->
  In r rows ->
  exists f, (In f (JS.keys os) \/ In f (JS.keys ms))
            /\ r = comparisonRow os ms cf f.
Proof.
  intros Ho Hm Hout Hr.
  rewrite (getComparisonData_present oe me os ms cf Ho Hm) in Hout.
  assert (E : JS.slice0 10
                (JS.sort byAbsChange
                   (map (comparisonRow os ms cf)
                      (JS.new_Set (JS.keys os ++ JS.keys ms)))) = rows)
    by congruence.
  rewrite <- E in Hr. apply slice0_incl in Hr.
  apply (Permutation_in r (sort_perm absChange _)) in Hr.
  apply in_map_iff in Hr. destruct Hr as (f & <- & Hf).
  exists f. split; [|reflexivity].
  rewrite new_Set_In, in_app_iff in Hf. exact Hf.
Qed.

End RowFacts.

(** Comparing an explanation with itself gives rows whose change is zero and
    none of which is drawn red; and swapping the two explanations negates the
    change of every feature and keeps its absolute value. *)
Theorem comparison_change_signs :
  forall (e : ExplanationResponse.t) (shap other : JS.object Q)
         (changedFields : list string),
    ExplanationResponse.shap_values e = Some shap ->
    (exists rows,
        ComparisonView.getComparisonData (Some e) (Some e) changedFields
        = JS.Normal rows
        /\ forall r, In r rows ->
                     (ComparisonView.change r == 0)%Q
                     /\ ComparisonView.original r = ComparisonView.modified r
                     /\ ComparisonView.cellFill r <> "#f44336")
    /\ (forall f,
          (ComparisonView.change
             (ComparisonView.comparisonRow shap other changedFields f)
           == - ComparisonView.change
                  (ComparisonView.comparisonRow other shap changedFields f))%Q
          /\ ComparisonView.absChange
               (ComparisonView.comparisonRow shap other changedFields f)
             = ComparisonView.absChange
                 (ComparisonView.comparisonRow other shap changedFields f)).
Proof.
  intros e shap other cf He. split.
  - destruct (getComparisonData_total (Some e) (Some e) cf) as (rows & Hout).
    exists rows. split; [assumption|]. intros r Hr.
    destruct (getComparisonData_rows e e shap shap cf rows r He He Hout Hr)
      as (f & _ & ->).
    assert (Z : (ComparisonView.change
                   (ComparisonView.comparisonRow shap shap cf f) == 0)%Q).
    { simpl. ring. }
    split; [exact Z|]. split; [reflexivity|].
    unfold ComparisonView.cellFill.
    destruct (ComparisonView.isChanged _); [discriminate|].
    destruct (JS.ge _ 0) eqn:G; [discriminate|].
    apply ge_false_iff in G. rewrite Z in G. exfalso.
    apply (Qlt_irrefl _ G).
  - intros f. split.
    + simpl. ring.
    + unfold ComparisonView.absChange. simpl. apply Qabs_Qminus.
Qed.

Lemma comparison_change_signs_witness :
  exists rows,
    ComparisonView.getComparisonData (Some Samples.originalExplanation)
      (Some Samples.originalExplanation) ["total_clicks"]
    = JS.Normal rows
    /\ forall r, In r rows -> (ComparisonView.change r == 0)%Q.
Proof.
  destruct (comparison_change_signs Samples.originalExplanation
              Samples.originalShap Samples.modifiedShap ["total_clicks"]
              eq_refl) as ((rows & Hout & Hrows) & _).
  exists rows. split; [exact Hout|]. intros r Hr. now apply Hrows.
Defined.

Ltac open_cases :=
  repeat match goal with
         | |- _ /\ _ => split
         | |- _ <-> _ => split
         | |- _ -> _ => intro
         | |- ~ _ => intro
         | H : _ /\ _ |- _ => destruct H
         end;
  try solve [discriminate | reflexivity | assumption].

(** The bar of a feature is drawn orange and opaque exactly when the feature
    name is in the changed-field list; otherwise it is green when the
    modified contribution is at least the original one and red when it is
    smaller. *)
Theorem bar_colour :
  forall (originalShap modifiedShap : JS.object Q)
         (changedFields : list string) (f : string),
    let r := ComparisonView.comparisonRow originalShap modifiedShap
               changedFields f in
    (ComparisonView.cellFill r = "#ff9800" <-> In f changedFields)
    /\ (ComparisonView.cellOpacity r = 1%Q <-> In f changedFields)
    /\ (ComparisonView.cellFill r = "#4caf50"
        <-> ~ In f changedFields
            /\ (JS.get_or_zero originalShap f
                <= JS.get_or_zero modifiedShap f)%Q)
    /\ (ComparisonView.cellFill r = "#f44336"
        <-> ~ In f changedFields
            /\ (JS.get_or_zero modifiedShap f
                < JS.get_or_zero originalShap f)%Q).
Proof.
  intros os ms cf f r. subst r.
  unfold ComparisonView.cellFill, ComparisonView.cellOpacity. simpl.
  destruct (JS.includes cf f) eqn:I.
  - apply includes_In in I. open_cases; try contradiction.
  - apply includes_not_In in I.
    destruct (JS.ge (JS.get_or_zero ms f - JS.get_or_zero os f) 0) eqn:G.
    + apply ge_iff in G. open_cases; try contradiction; lra.
    + apply ge_false_iff in G. open_cases; try contradiction; lra.
Qed.

(** ** Probability lines of the modified card *)

Section ProbabilityFacts.

Import ComparisonView.








End ProbabilityFacts.





(** ** Outcome colours and icons *)

(** The four outcome labels get four different colours, each with an icon;
    every other string (a probability key the types do not foresee) is drawn
    grey and without icon.  The prediction card and the comparison view use
    the same colours and icons. *)
Theorem prediction_colours :
  (forall o1 o2 : Outcome,
      ComparisonView.getPredictionColor (Outcome_label o1)
      = ComparisonView.getPredictionColor (Outcome_label o2) ->
      o1 = o2)
  /\ (forall pred,
        ComparisonView.getPredictionIcon pred = None
        <-> ComparisonView.getPredictionColor pred = "#757575")
  /\ (forall pred,
        ComparisonView.getPredictionIcon pred = None
        <-> forall o : Outcome, pred <> Outcome_label o)
  /\ (forall pred,
        PredictionCard.getPredictionColor pred
        = ComparisonView.getPredictionColor pred
        /\ PredictionCard.getPredictionIcon pred
           = ComparisonView.getPredictionIcon pred).
Proof.
  split; [|split; [|split]].
  - intros [] []; simpl; intros H; try reflexivity; discriminate.
  - intros pred.
    unfold ComparisonView.getPredictionIcon,
      ComparisonView.getPredictionColor.
    repeat (destruct (String.eqb pred _);
            [split; intros H; discriminate|]).
    split; reflexivity.
  - intros pred. unfold ComparisonView.getPredictionIcon.
    destruct (String.eqb_spec pred "Distinction") as [->|N1].
    { split; [discriminate|]. intros H. now destruct (H Distinction). }
    destruct (String.eqb_spec pred "Pass") as [->|N2].
    { split; [discriminate|]. intros H. now destruct (H Pass). }
    destruct (String.eqb_spec pred "Fail") as [->|N3].
    { split; [discriminate|]. intros H. now destruct (H Fail). }
    destruct (String.eqb_spec pred "Withdrawn") as [->|N4].
    { split; [discriminate|]. intros H. now destruct (H Withdrawn). }
    split; [|reflexivity]. intros _ []; assumption.
  - intros pred. split; reflexivity.
Qed.

Lemma prediction_colours_witness :
  ComparisonView.getPredictionColor "Pass"
  <> ComparisonView.getPredictionColor "Fail"
  /\ ComparisonView.getPredictionIcon "Deferred" = None.
Proof.
  destruct prediction_colours as (Hinj & _ & Hicon & _).
  split.
  - intros E. assert (H : Pass = Fail) by (apply Hinj; exact E).
    discriminate.
  - apply Hicon. intros []; discriminate.
Defined.

(** ** Feature labels *)

Section LabelFacts.

Lemma label_char (c : ascii) :
  let c' := JS.upper (JS.underscore_to_space c) in
  Ascii.eqb c' "_"%char = false
  /\ ((97 <=? nat_of_ascii c')%nat && (nat_of_ascii c' <=? 122)%nat) = false
  /\ JS.upper (JS.underscore_to_space c') = c'.
Proof.
  destruct c as [[] [] [] [] [] [] [] []]; vm_compute; repeat split.
Qed.

Lemma map_chars_length (f : ascii -> ascii) (s : string) :
  String.length (JS.map_chars f s) = String.length s.
Proof. induction s as [|c s IH]; simpl; [reflexivity|now rewrite IH]. Qed.

Lemma map_chars_compose (f g : ascii -> ascii) (s : string) :
  JS.map_chars f (JS.map_chars g s) = JS.map_chars (fun c => f (g c)) s.
Proof. induction s as [|c s IH]; simpl; [reflexivity|now rewrite IH]. Qed.

Lemma map_chars_In (f : ascii -> ascii) (s : string) (c : ascii) :
  In c (list_ascii_of_string (JS.map_chars f s)) ->
  exists c0, In c0 (list_ascii_of_string s) /\ c = f c0.
Proof.
  induction s as [|c1 s IH]; simpl; [tauto|].
  intros [<-|H].
  - exists c1. split; [now left|reflexivity].
  - destruct (IH H) as (c0 & H0 & ->). exists c0. split; [now right|easy].
Qed.

Lemma map_chars_ext (f g : ascii -> ascii) (s : string) :
  (forall c, f c = g c) -> JS.map_chars f s = JS.map_chars g s.
Proof.
  intros H. induction s as [|c s IH]; simpl; [reflexivity|].
  now rewrite H, IH.
Qed.

End LabelFacts.

(** The chart label of an ASCII feature name has the name's length, holds no
    underscore and no lower-case letter, and labelling it again changes
    nothing. *)
Theorem feature_label :
  forall name : string,
    (forall c, In c (list_ascii_of_string name) ->
               (nat_of_ascii c < 128)%nat) ->
    let label := JS.toUpperCase (JS.replace_underscores name) in
    String.length label = String.length name
    /\ (forall c, In c (list_ascii_of_string label) ->
                  c <> "_"%char
                  /\ ~ (97 <= nat_of_ascii c <= 122)%nat)
    /\ JS.toUpperCase (JS.replace_underscores label) = label.
Proof.
  intros name _ label. subst label.
  unfold JS.toUpperCase, JS.replace_underscores.
  split; [now rewrite !map_chars_length|]. split.
  - intros c Hc. rewrite map_chars_compose in Hc.
    apply map_chars_In in Hc. destruct Hc as (c0 & _ & ->).
    destruct (label_char c0) as (H1 & H2 & _). split.
    + intros E. rewrite E in H1. discriminate.
    + intros [L U]. apply Nat.leb_le in L. apply Nat.leb_le in U.
      rewrite L, U in H2. discriminate.
  - rewrite !map_chars_compose.
    induction name as [|c s IH]; simpl; [reflexivity|].
    f_equal; [|exact IH]. apply (label_char c).
Qed.

Lemma feature_label_witness :
  JS.toUpperCase (JS.replace_underscores "avg_assessment_score")
  = "AVG ASSESSMENT SCORE"
  /\ String.length (JS.toUpperCase
                      (JS.replace_underscores "avg_assessment_score"))
     = 20%nat.
Proof.
  split; [reflexivity|].
  apply (feature_label "avg_assessment_score").
  intros c Hc. simpl in Hc.
  repeat (destruct Hc as [<-|Hc]; [vm_compute; lia|]). destruct Hc.
Defined.

(** ** The response interceptor *)

(** The interceptor looks at the status before the error code: a 422 reply
    is a validation error, with "Invalid input data" in place of a missing or
    empty detail, and a 500 reply is a server error, whatever the code; the
    code decides only for other replies.  An error that is none of the four
    (a 404 or a 503, say) is passed on unchanged, so its message is axios's
    own. *)
Theorem interceptor_cases :
  forall (error : Api.AxiosError),
    (forall r,
        Api.response error = Some r -> Api.status r = 422%nat ->
        Api.detail r = None \/ Api.detail r = Some "" ->
        Api.onResponseError error
        = Api.NewError "Validation Error: Invalid input data")
    /\ (forall r,
          Api.response error = Some r -> Api.status r = 500%nat ->
          Api.onResponseError error
          = Api.NewError "Server Error: Please try again later")
    /\ (Api.status_is error 422 = false ->
        Api.status_is error 500 = false ->
        (Api.code error = Some "ECONNREFUSED" ->
         Api.onResponseError error
         = Api.NewError "Connection Error: Backend server is not running")
        /\ (Api.code error = Some "ECONNABORTED" ->
            Api.onResponseError error
            = Api.NewError
                "Timeout Error: Request took too long to complete")
        /\ (Api.code_is error "ECONNREFUSED" = false ->
            Api.code_is error "ECONNABORTED" = false ->
            Api.onResponseError error = Api.OfAxios error
            /\ forall fallback,
                Api.message_or fallback (Api.onResponseError error)
                = Api.axios_message error)).
Proof.
  intros error. split; [|split].
  - intros r Hr Hs Hd. unfold Api.onResponseError, Api.status_is,
      Api.detail_or_default. rewrite Hr, Hs. simpl.
    destruct Hd as [-> | ->]; reflexivity.
  - intros r Hr Hs. unfold Api.onResponseError, Api.status_is.
    rewrite Hr, Hs. reflexivity.
  - intros H1 H2. unfold Api.onResponseError. rewrite H1, H2.
    unfold Api.code_is. split; [|split].
    + intros ->. reflexivity.
    + intros ->. reflexivity.
    + intros -> ->. split; reflexivity.
Qed.

Lemma interceptor_cases_witness :
  Api.onResponseError Samples.validationFailureNoDetail
  = Api.NewError "Validation Error: Invalid input data"
  /\ Api.onResponseError Samples.serviceUnavailable
     = Api.OfAxios Samples.serviceUnavailable.
Proof.
  split.
  - destruct (interceptor_cases Samples.validationFailureNoDetail)
      as (H & _).
    apply (H {| Api.status := 422; Api.detail := None |});
      [reflexivity|reflexivity|now left].
  - destruct (interceptor_cases Samples.serviceUnavailable)
      as (_ & _ & H).
    destruct (H eq_refl eq_refl) as (_ & _ & Hpass).
    apply (Hpass eq_refl eq_refl).
Defined.

(** ** Sliders and validation *)

Section SchemaFacts.

Import Schema.

Lemma lookup_In {V} (o : JS.object V) k v :
  JS.lookup o k = Some v -> In (k, v) o.
Proof.
  induction o as [|[k0 v0] o IH]; simpl; [discriminate|].
  destruct (String.eqb_spec k0 k) as [->|N].
  - intros E. inversion E. now left.
  - intros H. right. now apply IH.
Qed.

Lemma within_between (b : Bounds) (lo hi v : Q) :
  within b lo = true -> within b hi = true ->
  (lo <= v)%Q -> (v <= hi)%Q -> within b v = true.
Proof.
  unfold within. intros Hlo Hhi L U.
  apply andb_prop in Hlo. destruct Hlo as [Hlo _].
  apply andb_prop in Hhi. destruct Hhi as [_ Hhi].
  apply andb_true_intro. split.
  - destruct (lower b); [|reflexivity]. apply Qle_bool_iff.
    apply Qle_bool_iff in Hlo. now apply Qle_trans with lo.
  - destruct (upper b); [|reflexivity]. apply Qle_bool_iff.
    apply Qle_bool_iff in Hhi. now apply Qle_trans with hi.
Qed.

Lemma ranges_within_bounds :
  forallb (fun entry : string * Range =>
             match JS.lookup numberBounds (fst entry) with
             | Some b => within b (min (snd entry))
                         && within b (max (snd entry))
             | None => false
             end)
    FIELD_RANGES = true.
Proof. reflexivity. Qed.

End SchemaFacts.

(** Every field with a slider range is a numeric field of the validation
    schema, and every value inside the range passes the [min] and [max]
    tests the schema puts on that field. *)
Theorem slider_values_pass_bounds :
  forall (field : string) (r : Schema.Range) (v : Q),
    JS.lookup Schema.FIELD_RANGES field = Some r ->
    (Schema.min r <= v)%Q -> (v <= Schema.max r)%Q ->
    (exists b, JS.lookup Schema.numberBounds field = Some b
               /\ Schema.within b v = true)
    /\ Schema.passesBounds field v = true.
Proof.
  intros field r v Hr L U.
  pose proof ranges_within_bounds as H.
  rewrite forallb_forall in H. specialize (H (field, r) (lookup_In _ _ _ Hr)).
  cbn beta iota delta [fst snd] in H. unfold Schema.passesBounds. revert H.
  destruct (JS.lookup Schema.numberBounds field) as [b|]; intros H;
    [|discriminate H].
  apply andb_prop in H. destruct H as [Hlo Hhi].
  assert (W : Schema.within b v = true)
    by now apply (within_between b (Schema.min r) (Schema.max r)).
  split; [exists b; split; [reflexivity|exact W]|exact W].
Qed.

Lemma slider_values_pass_bounds_witness :
  Schema.passesBounds "num_of_prev_attempts" 6 = true.
Proof.
  apply (slider_values_pass_bounds "num_of_prev_attempts"
           {| Schema.min := 0; Schema.max := 6; Schema.step := 1 |} 6).
  - reflexivity.
  - vm_compute. discriminate.
  - vm_compute. discriminate.
Defined.

(** ** The baseline once stored *)

Section BaselineFacts.

Import WhatIfAnalysis.

Lemma debouncedPredict_same_baseline data first predict explain s :
  same_baseline s (debouncedPredict data true first predict explain s).
Proof.
  destruct (debouncedPredict_cases data true first predict explain s)
    as [(msg & _ & ->)|(q & x & -> & ->)]; repeat split.
Qed.

Lemma step_baseline (e : Event) (p : Page) :
  notReset e = true ->
  forallb whatIfCall (pending p) = true ->
  forallb whatIfCall (pending (step e p)) = true
  /\ same_baseline (state p) (state (step e p)).
Proof.
  intros He Hp. destruct p as [s pend iss]. simpl in Hp.
  destruct e as [data cf|first predict explain| | |]; simpl;
    try discriminate.
  - unfold handleModifiedDataChange.
    destruct (JS.truthy (originalData s)); simpl.
    + rewrite forallb_app, Hp. repeat split.
    + rewrite app_nil_r. repeat split. exact Hp.
  - destruct pend as [|[data isModified] rest]; simpl.
    + repeat split.
    + simpl in Hp. apply andb_prop in Hp. destruct Hp as [Hm Hrest].
      subst isModified. split; [exact Hrest|].
      apply debouncedPredict_same_baseline.
  - split; [|repeat split]. destruct pend; [reflexivity|].
    simpl in Hp. apply andb_prop in Hp. now destruct Hp.
  - split; [exact Hp|repeat split].
Qed.

End BaselineFacts.

(** A stored baseline is never overwritten: the calls the page schedules are
    all what-if calls, and as long as reset is not clicked, the baseline
    record, prediction and explanation stay what they were through any edits
    and any calls that settle or are replaced. *)
Theorem baseline_immutable :
  forall (events : list WhatIfAnalysis.Event) (p : WhatIfAnalysis.Page),
    forallb WhatIfAnalysis.whatIfCall (WhatIfAnalysis.pending p) = true ->
    forallb WhatIfAnalysis.notReset events = true ->
    let p' := WhatIfAnalysis.run events p in
    forallb WhatIfAnalysis.whatIfCall (WhatIfAnalysis.pending p') = true
    /\ WhatIfAnalysis.same_baseline (WhatIfAnalysis.state p)
         (WhatIfAnalysis.state p').
Proof.
  intros events. unfold WhatIfAnalysis.run.
  induction events as [|e events IH]; intros p Hp He; simpl.
  - split; [exact Hp|repeat split].
  - simpl in He. apply andb_prop in He. destruct He as [He Hes].
    destruct (step_baseline e p He Hp) as (Hp1 & H1 & H2 & H3).
    destruct (IH (WhatIfAnalysis.step e p) Hp1 Hes) as (Hp2 & G1 & G2 & G3).
    split; [exact Hp2|]. unfold WhatIfAnalysis.same_baseline.
    simpl in *. repeat split; congruence.
Qed.

Lemma baseline_immutable_witness :
  WhatIfAnalysis.originalData
    (WhatIfAnalysis.state
       (WhatIfAnalysis.run
          [ WhatIfAnalysis.FormChange Samples.edited ["total_clicks"];
            WhatIfAnalysis.CallSettles Api.FirstOfPair
              (Api.Success Samples.somePrediction)
              (Api.Success Samples.modifiedExplanation) ]
          {| WhatIfAnalysis.state := Samples.withResults;
             WhatIfAnalysis.pending := [];
             WhatIfAnalysis.issued := [] |}))
  = Some Samples.baseline.
Proof.
  destruct (baseline_immutable
              [ WhatIfAnalysis.FormChange Samples.edited ["total_clicks"];
                WhatIfAnalysis.CallSettles Api.FirstOfPair
                  (Api.Success Samples.somePrediction)
                  (Api.Success Samples.modifiedExplanation) ]
              {| WhatIfAnalysis.state := Samples.withResults;
                 WhatIfAnalysis.pending := [];
                 WhatIfAnalysis.issued := [] |} eq_refl eq_refl)
    as (_ & H & _).
  exact H.
Defined.

(** Whenever the page renders the comparison view, the view does not take
    its placeholder branch and shows the prediction panel. *)
Theorem comparison_view_shows_panel :
  forall s : WhatIfAnalysis.State,
    WhatIfAnalysis.rendersComparison s = true ->
    ComparisonView.placeholderShown (WhatIfAnalysis.originalPrediction s)
      (WhatIfAnalysis.modifiedPrediction s) = false
    /\ ComparisonView.predictionPanelShown
         (WhatIfAnalysis.originalPrediction s)
         (WhatIfAnalysis.modifiedPrediction s) = true.
Proof.
  intros s H. unfold WhatIfAnalysis.rendersComparison in H.
  apply andb_prop in H. destruct H as [H Hm].
  apply andb_prop in H. destruct H as [_ Ho].
  unfold ComparisonView.predictionPanelShown, ComparisonView.placeholderShown.
  rewrite Ho, Hm. split; reflexivity.
Qed.

Lemma comparison_view_shows_panel_witness :
  ComparisonView.predictionPanelShown
    (WhatIfAnalysis.originalPrediction Samples.withResults)
    (WhatIfAnalysis.modifiedPrediction Samples.withResults) = true.
Proof.
  apply (comparison_view_shows_panel Samples.withResults). reflexivity.
Defined.
